(** * The autoscheduler cost model (src/CostModelGenerator.cpp)

    A shallow embedding of the Halide generator [CostModel<training>] and of
    [ModelWeight<training>::backprop], together with the properties the
    specification states about them.

    Conventions of the embedding.
    - A Halide [Func] or input [Buffer<float>] is a total function from
      integer coordinates to a scalar.  Coordinates are mathematical integers.
    - [Float(32)] arithmetic is idealised: scalars are the real numbers of the
      Standard Library, [+ - * /], [max] and [sqrt] are the exact operations.
      Rounding, NaN and infinities are outside this model.  The whitening
      division alone is also given in Float(32) itself (module [Float32]),
      to settle whether it can overflow.
    - Scalar [Int(32)] expressions over the generator's inputs ([num_stages],
      [timestep]) are computed with explicit 32-bit wrap-around.
    - An update definition over an [RDom] is a left fold over the points of
      the domain, in Halide's iteration order (first dimension innermost).
    - Scheduling directives ([compute_root], [vectorize], ...) do not change
      values and are not embedded. *)

From Stdlib Require Import ZArith Reals Lra Lia List Bool String.
From Stdlib Require Import Floats.SpecFloat.
Import ListNotations.

(** ** Int(32) scalar arithmetic *)

Module Int32.
Local Open Scope Z_scope.

Definition min_signed : Z := - 2 ^ 31.
Definition max_signed : Z := 2 ^ 31 - 1.

Definition wrap (z : Z) : Z := (z + 2 ^ 31) mod 2 ^ 32 - 2 ^ 31.

Definition in_range (z : Z) : Prop := min_signed <= z <= max_signed.

Definition add (a b : Z) : Z := wrap (a + b).
Definition sub (a b : Z) : Z := wrap (a - b).
Definition mul (a b : Z) : Z := wrap (a * b).
(* Halide integer division rounds towards minus infinity. *)
Definition div (a b : Z) : Z := wrap (a / b).
Definition max (a b : Z) : Z := Z.max a b.

End Int32.

(** ** The Halide constructs the generator uses *)

Module Halide.

(** [RDom(min, extent)]: the points [min, min + extent), in order. *)
Definition rdom (min extent : Z) : list Z :=
  map (fun i => (min + Z.of_nat i)%Z) (seq 0 (Z.to_nat extent)).

(** [RDom(min_x, extent_x, min_y, extent_y)]: [x] is the innermost loop. *)
Definition rdom2 (min_x extent_x min_y extent_y : Z) : list (Z * Z) :=
  flat_map (fun y => map (fun x => (x, y)) (rdom min_x extent_x))
           (rdom min_y extent_y).

(** An update definition: starting from the pure definition, [step] is
    applied once per point of the reduction domain. *)
Definition update {P F : Type} (dom : list P) (step : P -> F -> F)
    (pure_def : F) : F :=
  fold_left (fun f r => step r f) dom pure_def.

(** The inline reduction [sum(e(r))] of InlineReductions.h. *)
Definition sum {P : Type} (dom : list P) (e : P -> R) : R :=
  update dom (fun r acc => (acc + e r)%R) 0%R.

(** Zero padding along the last dimension of a [Func] of any arity. *)
Class LastDim (F : Type) := exterior : R -> Z -> Z -> F -> F.

(** Modelled from the spec: [BoundaryConditions::constant_exterior], which
    is defined in Halide's BoundaryConditions.h and not in
    CostModelGenerator.cpp.  With bounds given for the last
    dimension only, the result is the function itself inside
    [min, min + extent) and the constant outside ("exact zero-fill outside
    the valid range"). *)
#[global] Instance constant_exterior_1 : LastDim (Z -> R) :=
  fun value min extent f w =>
    if ((min <=? w) && (w <? min + extent))%Z then f w else value.

#[global] Instance constant_exterior_S {F : Type} `{LastDim F}
    : LastDim (Z -> F) :=
  fun value min extent f x => exterior value min extent (f x).

Definition constant_exterior {F : Type} `{LastDim F}
    (f : F) (value : R) (min extent : Z) : F :=
  exterior value min extent f.

(** Modelled from the spec: Halide's [pow], which is declared in
    IROperator.h and not defined in CostModelGenerator.cpp.  Both call sites
    pass an [Int(32)] exponent, and the spec reads them as integer powers
    ([0.9^(t+1)], [g^2]). *)
Definition pow (x : R) (k : Z) : R := powerRZ x k.

End Halide.

(** ** Mathematical sums, used to state the properties *)

Fixpoint Sigma (n : nat) (f : Z -> R) : R :=
  match n with
  | O => 0%R
  | S k => (Sigma k f + f (Z.of_nat k))%R
  end.

(** The sum of the terms [g r] over the points of a reduction domain. *)
Fixpoint list_Rsum {P : Type} (dom : list P) (g : P -> R) : R :=
  match dom with
  | [] => 0
  | r :: rest => g r + list_Rsum rest g
  end.


(** ** ModelWeight *)

(** A weight is an input buffer, addressed by the vector [args] of its
    coordinates.  [extent i] is [dim(i).extent()].  In training mode the
    weight is also the output buffer [grad] ("updated_" + name) with one
    more trailing coordinate; [grad_in] is what that buffer holds when the
    pipeline is entered (its pure definition is [undef<float>()], which
    leaves the buffer as the caller passed it). *)
Record ModelWeight : Type := {
  value :> list Z -> R;
  extent : nat -> Z;
  grad_in : list Z -> Z -> R
}.

(** The adjoints of the loss: for the Func of a given name, the derivative
    of the loss with respect to each of its entries.  The source applies the
    Derivative [d] to the weight itself, which selects by name. *)
Definition Derivative : Type := string -> list Z -> R.

(** [set_shape(s0, s1, s2)] as the constraint it places on the input buffer:
    [dim(i).set_bounds(0, si)], for [i > 0] only when [si] is not 0. *)
Definition set_shape (w : ModelWeight) (s0 s1 s2 : Z) : Prop :=
  extent w 0 = s0 /\
  (s1 <> 0%Z -> extent w 1 = s1) /\
  (s2 <> 0%Z -> extent w 2 = s2).

Module ModelWeightTraining.
Local Open Scope R_scope.

(** An update definition [grad(args..., k) = e] with pure [args]: plane
    [k] of every entry is replaced; [e] may read the current [grad]. *)
Definition set_plane (k : Z) (e : (list Z -> Z -> R) -> list Z -> R)
    (grad : list Z -> Z -> R) : list Z -> Z -> R :=
  fun args i => if (i =? k)%Z then e grad args else grad args i.

Definition smoothed_deriv_correction (timestep : Z) : R :=
  1 / (1 - Halide.pow 0.9 (Int32.add timestep 1)).

Definition smoothed_second_moment_correction (timestep : Z) : R :=
  1 / (1 - Halide.pow 0.999 (Int32.add timestep 1)).

(** [ModelWeight<true>::backprop]: the four update definitions of [grad],
    in the order the source adds them.  [name] is the name the weight was
    constructed with. *)
Definition backprop (name : string) (self : ModelWeight) (d : Derivative)
    (learning_rate : R) (timestep : Z) : list Z -> Z -> R :=
  let new_weight := 0%Z in
  let smoothed_deriv := 1%Z in
  let smoothed_second_moment := 2%Z in
  let loss_gradient := 3%Z in
  let grad := grad_in self in
  let grad := set_plane loss_gradient (fun _ args => d name args) grad in
  let grad :=
    set_plane smoothed_deriv
      (fun g args =>
         0.9 * g args smoothed_deriv + 0.1 * g args loss_gradient) grad in
  let grad :=
    set_plane smoothed_second_moment
      (fun g args =>
         0.999 * g args smoothed_second_moment
         + 0.001 * Halide.pow (g args loss_gradient) 2) grad in
  set_plane new_weight
    (fun g args =>
       let current_weight := self args in
       let step :=
         learning_rate * g args smoothed_deriv
         * smoothed_deriv_correction timestep in
       let step :=
         step / (sqrt (g args smoothed_second_moment
                       * smoothed_second_moment_correction timestep)
                 + 1e-8) in
       current_weight - step) grad.
End ModelWeightTraining.

(** ** The generator's inputs and outputs *)

Record Inputs : Type := {
  num_stages : Z;
  batch_size : Z;
  pipeline_features : Z -> Z -> Z -> R;
  schedule_features : Z -> Z -> Z -> R;
  (* feature statistics for whitening *)
  pipeline_mean : Z -> Z -> R;
  pipeline_std : Z -> Z -> R;
  schedule_mean : Z -> R;
  schedule_std : Z -> R;
  (* extra inputs for training mode *)
  learning_rate : R;
  timestep : Z;
  true_runtime : Z -> R
}.

Record Weights : Type := {
  head1_filter : ModelWeight;
  head1_bias : ModelWeight;
  head2_filter : ModelWeight;
  head2_bias : ModelWeight;
  filter1 : ModelWeight;
  bias1 : ModelWeight;
  filter2 : ModelWeight;
  bias2 : ModelWeight;
  filter3 : ModelWeight;
  bias3 : ModelWeight;
  filter4 : ModelWeight;
  bias4 : ModelWeight;
  filter5 : ModelWeight;
  bias5 : ModelWeight;
  filter6 : ModelWeight;
  bias6 : ModelWeight
}.

(** [updated] holds one [grad] buffer per weight, in the order of the
    source's [weights] array; it is empty in inference mode, where a
    [ModelWeight] has no output. *)
Record Outputs : Type := {
  prediction_output : Z -> R;
  loss_output : R;
  updated : list (list Z -> Z -> R)
}.

(** The outcome of a call of a pipeline.  [InvalidConfiguration] is the error
    the spec names for a non-positive [num_stages] or [batch_size]; no
    statement of the generator raises it. *)
Inductive error : Type := InvalidConfiguration.

Inductive result : Type :=
| Success (out : Outputs)
| Failure (e : error).

(** ** CostModel<training>::generate *)

Module CostModel.
Section Generate.
Local Open Scope R_scope.

(** Halide's [fast_log], an approximate natural logarithm declared in
    IROperator.h: the spec writes it [log]. *)
Variable fast_log : R -> R.
(** The result of [propagate_adjoints(loss_output)], Halide's reverse-mode
    differentiation (Derivative.h). *)
Variable d_loss_d : Derivative.

Variable training : bool.
Variable I : Inputs.
Variable W : Weights.

(** Zero pad along the last dimension of a Func. *)
Definition pad_stages {F : Type} `{Halide.LastDim F} (f : F) (stages : Z)
    : F :=
  Halide.constant_exterior f 0 0%Z stages.

Definition activation (e : R) : R := Rmax 0 e + 1e-5 * e.

Definition padded_stages : Z := Int32.max I.(num_stages) 22.
Definition first_valid : Z :=
  Int32.max 0 (Int32.div (Int32.sub padded_stages I.(num_stages)) 2).

Definition r_s : list Z := Halide.rdom first_valid I.(num_stages).

Definition normalized_pipeline_features : Z -> Z -> Z -> R :=
  Halide.update r_s
    (fun r f c j s =>
       if (s =? r)%Z
       then (I.(pipeline_features) c j (r - first_valid)%Z
             - I.(pipeline_mean) c j)
            / Rmax 1e-8 (I.(pipeline_std) c j)
       else f c j s)
    (fun c j s => 0).

Definition normalized_schedule_features : Z -> Z -> Z -> R :=
  Halide.update r_s
    (fun r f n c s =>
       if (s =? r)%Z
       then (fast_log (I.(schedule_features) n c (r - first_valid)%Z + 1)
             - I.(schedule_mean) c)
            / Rmax 1e-8 (I.(schedule_std) c)
       else f n c s)
    (fun n c s => 0).

Definition head1_channels : Z := 24.
Definition head1_w : Z := 56.
Definition head1_h : Z := 7.
Definition head2_channels : Z := 24.
Definition head2_w : Z := 26.
Definition conv1_channels : Z := 48.
Definition conv2_channels : Z := 48.
Definition conv3_channels : Z := 96.
Definition conv4_channels : Z := 120.
Definition conv5_channels : Z := 168.
Definition conv_support : Z := 3.

Definition r_head1 : list (Z * Z) := Halide.rdom2 0 head1_w 0 head1_h.
Definition head1_conv : Z -> Z -> R :=
  Halide.update r_head1
    (fun r f c w =>
       f c w + W.(head1_filter) [c; fst r; snd r]
               * normalized_pipeline_features (fst r) (snd r) w)
    (fun c w => W.(head1_bias) [c]).

Definition head1_relu : Z -> Z -> R :=
  fun c w => activation (head1_conv c w).

Definition head1_relu_padded : Z -> Z -> R :=
  pad_stages head1_relu padded_stages.

Definition r_head2 : list Z := Halide.rdom 0 head2_w.
Definition head2_conv : Z -> Z -> Z -> R :=
  Halide.update r_head2
    (fun r f n c w =>
       f n c w + W.(head2_filter) [c; r]
                 * normalized_schedule_features n r w)
    (fun n c w => W.(head2_bias) [c]).

Definition head2_relu : Z -> Z -> Z -> R :=
  fun n c w => activation (head2_conv n c w).

Definition head2_relu_padded : Z -> Z -> Z -> R :=
  pad_stages head2_relu padded_stages.

(***** network trunk *****)
(* two stages for conv1, to convolve over each head's outputs *)
Definition r1_stage1 : list (Z * Z) :=
  Halide.rdom2 0 head1_channels 0 conv_support.
Definition conv1_stage1 : Z -> Z -> R :=
  Halide.update r1_stage1
    (fun r f c w =>
       f c w + W.(filter1) [c; fst r; snd r]
               * head1_relu_padded (fst r) (w + snd r - 1)%Z)
    (fun c w => W.(bias1) [c]).

Definition r1_stage2 : list (Z * Z) :=
  Halide.rdom2 0 head2_channels 0 conv_support.
Definition conv1_stage2 : Z -> Z -> Z -> R :=
  Halide.update r1_stage2
    (fun r f n c w =>
       f n c w
       + W.(filter1) [c; (extent W.(head1_filter) 0 + fst r)%Z; snd r]
         * head2_relu_padded n (fst r) (w + snd r - 1)%Z)
    (* broadcast the processed pipeline features across the batch *)
    (fun n c w => conv1_stage1 c w).

Definition relu1 : Z -> Z -> Z -> R :=
  fun n c w => activation (conv1_stage2 n c w).

Definition relu1_padded : Z -> Z -> Z -> R :=
  pad_stages relu1 padded_stages.

Definition r2 : list (Z * Z) := Halide.rdom2 0 conv1_channels 0 conv_support.
Definition conv2 : Z -> Z -> Z -> R :=
  Halide.update r2
    (fun r f n c w =>
       f n c w + W.(filter2) [c; fst r; snd r]
                 * relu1_padded n (fst r) (w + snd r - 1)%Z)
    (fun n c w => W.(bias2) [c]).

Definition relu2 : Z -> Z -> Z -> R :=
  fun n c w => activation (conv2 n c w).

Definition relu2_padded : Z -> Z -> Z -> R :=
  pad_stages relu2 padded_stages.

Definition r3 : list (Z * Z) := Halide.rdom2 0 conv2_channels 0 conv_support.
Definition conv3 : Z -> Z -> Z -> R :=
  Halide.update r3
    (fun r f n c w =>
       f n c w + W.(filter3) [c; fst r; snd r]
                 * relu2_padded n (fst r) (w + snd r - 1)%Z)
    (fun n c w => W.(bias3) [c]).

Definition relu3 : Z -> Z -> Z -> R :=
  fun n c w => activation (conv3 n c w).

Definition relu3_padded : Z -> Z -> Z -> R :=
  pad_stages relu3 padded_stages.

Definition pool3 : Z -> Z -> Z -> R :=
  fun n c w =>
    0.5 * (relu3_padded n c (w * 2 - 1)%Z + relu3_padded n c (w * 2)%Z).

Definition pool3_stages : Z := Int32.add (Int32.div padded_stages 2) 1.
Definition pool3_padded : Z -> Z -> Z -> R :=
  pad_stages pool3 pool3_stages.

Definition r4 : list (Z * Z) := Halide.rdom2 0 conv3_channels 0 conv_support.
Definition conv4 : Z -> Z -> Z -> R :=
  Halide.update r4
    (fun r f n c w =>
       f n c w + W.(filter4) [c; fst r; snd r]
                 * pool3_padded n (fst r) (w + snd r - 1)%Z)
    (fun n c w => W.(bias4) [c]).

Definition relu4 : Z -> Z -> Z -> R :=
  fun n c w => activation (conv4 n c w).

Definition relu4_padded : Z -> Z -> Z -> R :=
  pad_stages relu4 pool3_stages.

Definition pool4 : Z -> Z -> Z -> R :=
  fun n c w =>
    0.5 * (relu4_padded n c (w * 2 - 1)%Z + relu4_padded n c (w * 2)%Z).

Definition pool4_stages : Z := Int32.div (Int32.add padded_stages 6) 4.
Definition pool4_padded : Z -> Z -> Z -> R :=
  pad_stages pool4 pool4_stages.

Definition r5 : list (Z * Z) := Halide.rdom2 0 conv4_channels 0 conv_support.
Definition conv5 : Z -> Z -> Z -> R :=
  Halide.update r5
    (fun r f n c w =>
       f n c w + W.(filter5) [c; fst r; snd r]
                 * pool4_padded n (fst r) (w + snd r - 1)%Z)
    (fun n c w => W.(bias5) [c]).

Definition relu5 : Z -> Z -> Z -> R :=
  fun n c w => activation (conv5 n c w).

Definition relu5_padded : Z -> Z -> Z -> R :=
  pad_stages relu5 pool4_stages.

Definition r6 : list Z := Halide.rdom 0 conv5_channels.
Definition conv6 : Z -> Z -> R :=
  Halide.update r6
    (fun r f n w => f n w + W.(filter6) [r] * relu5_padded n r w)
    (fun n w => W.(bias6) []).

Definition relu6 : Z -> Z -> R :=
  fun n w => activation (conv6 n w).

(* reduce over the final, shrunk stage window *)
Definition r_reduce : list Z := Halide.rdom 0 pool4_stages.
Definition prediction : Z -> R :=
  Halide.update r_reduce (fun r f n => f n + relu6 n r) (fun n => 0).

Definition r_batch : list Z := Halide.rdom 0 I.(batch_size).
Definition err : Z -> R :=
  fun n =>
    let delta := prediction n - I.(true_runtime) n in
    delta * delta.
Definition loss : R := Halide.sum r_batch err.

Definition weights : list (string * ModelWeight) :=
  [ ("head1_filter", W.(head1_filter)); ("head1_bias", W.(head1_bias));
    ("head2_filter", W.(head2_filter)); ("head2_bias", W.(head2_bias));
    ("filter1", W.(filter1)); ("bias1", W.(bias1));
    ("filter2", W.(filter2)); ("bias2", W.(bias2));
    ("filter3", W.(filter3)); ("bias3", W.(bias3));
    ("filter4", W.(filter4)); ("bias4", W.(bias4));
    ("filter5", W.(filter5)); ("bias5", W.(bias5));
    ("filter6", W.(filter6)); ("bias6", W.(bias6)) ]%string.

Definition generate : Outputs :=
  {| prediction_output := fun n => prediction n;
     loss_output :=
       if negb training then 0 else loss / IZR I.(batch_size);
     updated :=
       if negb training then []
       else map (fun w =>
                   ModelWeightTraining.backprop (fst w) (snd w) d_loss_d
                     I.(learning_rate) I.(timestep))
                weights |}.

(** The static weight shapes declared at the end of [generate]. *)
Definition weight_shapes : Prop :=
  set_shape W.(head1_filter) head1_channels head1_w head1_h /\
  set_shape W.(head1_bias) head1_channels 0 0 /\
  set_shape W.(head2_filter) head2_channels head2_w 0 /\
  set_shape W.(head2_bias) head2_channels 0 0 /\
  set_shape W.(filter1) conv1_channels (head1_channels + head2_channels)
    conv_support /\
  set_shape W.(bias1) conv1_channels 0 0 /\
  set_shape W.(filter2) conv2_channels conv1_channels conv_support /\
  set_shape W.(bias2) conv2_channels 0 0 /\
  set_shape W.(filter3) conv3_channels conv2_channels conv_support /\
  set_shape W.(bias3) conv3_channels 0 0 /\
  set_shape W.(filter4) conv4_channels conv3_channels conv_support /\
  set_shape W.(bias4) conv4_channels 0 0 /\
  set_shape W.(filter5) conv5_channels conv4_channels conv_support /\
  set_shape W.(bias5) conv5_channels 0 0 /\
  set_shape W.(filter6) conv5_channels 0 0.

End Generate.
End CostModel.

(** The two registered pipelines.  The generator contains no check of its
    scalar inputs and no failing path: a call always yields its outputs.
    Inference computes no derivative ([ModelWeight<false>::backprop] is
    empty), so the derivative handed to [generate] there is never read. *)
Definition CostModelInference (fast_log : R -> R) (I : Inputs) (W : Weights)
    : result :=
  Success (CostModel.generate fast_log (fun _ _ => 0%R) false I W).

Definition CostModelTraining (fast_log : R -> R) (d_loss_d : Derivative)
    (I : Inputs) (W : Weights) : result :=
  Success (CostModel.generate fast_log d_loss_d true I W).

(** ** Concrete inputs *)

Definition example_weight (v : R) (s0 s1 s2 : Z) : ModelWeight :=
  {| value := fun _ => v;
     extent := fun i => match i with O => s0 | S O => s1 | _ => s2 end;
     grad_in := fun _ _ => 0%R |}.

(** Every filter is zero and every bias is [b], with the declared shapes. *)
Definition example_weights (b : R) : Weights :=
  {| head1_filter := example_weight 0 24 56 7;
     head1_bias := example_weight b 24 0 0;
     head2_filter := example_weight 0 24 26 0;
     head2_bias := example_weight b 24 0 0;
     filter1 := example_weight 0 48 48 3;
     bias1 := example_weight b 48 0 0;
     filter2 := example_weight 0 48 48 3;
     bias2 := example_weight b 48 0 0;
     filter3 := example_weight 0 96 48 3;
     bias3 := example_weight b 96 0 0;
     filter4 := example_weight 0 120 96 3;
     bias4 := example_weight b 120 0 0;
     filter5 := example_weight 0 168 120 3;
     bias5 := example_weight b 168 0 0;
     filter6 := example_weight 0 168 0 0;
     bias6 := example_weight b 0 0 0 |}.

(** Constant features, statistics with a zero std, learning rate 0.01 and
    timestep 0. *)
Definition example_inputs (stages batch : Z) : Inputs :=
  {| num_stages := stages;
     batch_size := batch;
     pipeline_features := fun _ _ _ => 1%R;
     schedule_features := fun _ _ _ => 1%R;
     pipeline_mean := fun _ _ => 0%R;
     pipeline_std := fun _ _ => 0%R;
     schedule_mean := fun _ => 0%R;
     schedule_std := fun _ => 0%R;
     learning_rate := 0.01%R;
     timestep := 0%Z;
     true_runtime := fun _ => 0%R |}.

Definition example_derivative : Derivative := fun _ _ => 1%R.

(** Half of [a], rounded up. *)
Definition ceil_half (a : Z) : Z := ((a + 1) / 2)%Z.

(** ** Inputs for the further properties *)

(** As [example_inputs], with the schedule features and the two stds
    chosen. *)
Definition example_inputs_with (sched : Z -> Z -> Z -> R) (std : R)
    (stages batch : Z) : Inputs :=
  {| num_stages := stages;
     batch_size := batch;
     pipeline_features := fun _ _ _ => 1%R;
     schedule_features := sched;
     pipeline_mean := fun _ _ => 0%R;
     pipeline_std := fun _ _ => std;
     schedule_mean := fun _ => 0%R;
     schedule_std := fun _ => std;
     learning_rate := 0.01%R;
     timestep := 0%Z;
     true_runtime := fun _ => 0%R |}.

(** Batch element [n] of [I] and batch element [n'] of [I'] describe the
    same schedule of the same pipeline: the stage count, the pipeline
    features and the four statistics agree, and so does the one row of
    schedule features.  Batch size, the other rows and the training inputs
    are free. *)
Definition same_row (n n' : Z) (I I' : Inputs) : Prop :=
  num_stages I = num_stages I' /\
  (forall c j s, pipeline_features I c j s = pipeline_features I' c j s) /\
  (forall c j, pipeline_mean I c j = pipeline_mean I' c j) /\
  (forall c j, pipeline_std I c j = pipeline_std I' c j) /\
  (forall c, schedule_mean I c = schedule_mean I' c) /\
  (forall c, schedule_std I c = schedule_std I' c) /\
  (forall c s, schedule_features I n c s = schedule_features I' n' c s).

(** ** The sixteen weights with chosen moments, and a later timestep *)

(** A weight of constant value [v] whose output buffer holds the first
    moment [m0] in plane 1 and the second moment [v0] in plane 2. *)
Definition example_weight_with_moments (v m0 v0 : R) : ModelWeight :=
  {| value := fun _ => v;
     extent := fun _ => 0%Z;
     grad_in := fun _ k =>
       if (k =? 1)%Z then m0 else if (k =? 2)%Z then v0 else 0%R |}.

Definition with_bias6 (W : Weights) (w : ModelWeight) : Weights :=
  {| head1_filter := head1_filter W;
     head1_bias := head1_bias W;
     head2_filter := head2_filter W;
     head2_bias := head2_bias W;
     filter1 := filter1 W;
     bias1 := bias1 W;
     filter2 := filter2 W;
     bias2 := bias2 W;
     filter3 := filter3 W;
     bias3 := bias3 W;
     filter4 := filter4 W;
     bias4 := bias4 W;
     filter5 := filter5 W;
     bias5 := bias5 W;
     filter6 := filter6 W;
     bias6 := w |}.

(** [example_inputs 22 1] at timestep [t]. *)
Definition example_inputs_at (t : Z) : Inputs :=
  {| num_stages := 22%Z;
     batch_size := 1%Z;
     pipeline_features := fun _ _ _ => 1%R;
     schedule_features := fun _ _ _ => 1%R;
     pipeline_mean := fun _ _ => 0%R;
     pipeline_std := fun _ _ => 0%R;
     schedule_mean := fun _ => 0%R;
     schedule_std := fun _ => 0%R;
     learning_rate := 0.01%R;
     timestep := t;
     true_runtime := fun _ => 0%R |}.

(** A derivative that tells the weights apart: 1 for ["bias6"], 0 for the
    others. *)
Definition bias6_derivative : Derivative :=
  fun name _ => if String.eqb name "bias6" then 1%R else 0%R.

(** ** The whitening division in Float(32) *)

Module Float32.

(** IEEE 754 binary32: 24 bits of precision, exponents below 128. *)
Definition prec : Z := 24.
Definition emax : Z := 128.

Definition sub (a b : spec_float) : spec_float := SFsub prec emax a b.
Definition div (a b : spec_float) : spec_float := SFdiv prec emax a b.
(* Halide's max on two numbers; neither operand is NaN where it is used. *)
Definition max (a b : spec_float) : spec_float := if SFltb a b then b else a.

(** The literal [1e-8f], bit pattern 0x322BCC77: 11258999 * 2^-50. *)
Definition floor_1e_8 : spec_float := S754_finite false 11258999 (-50).

End Float32.


(** ** Int(32) arithmetic without overflow *)

Lemma Int32_wrap_small (z : Z) : Int32.in_range z -> Int32.wrap z = z.
Proof.
  unfold Int32.in_range, Int32.min_signed, Int32.max_signed, Int32.wrap.
  intros H. rewrite Z.mod_small; lia.
Qed.

(** ** Reduction domains and update definitions *)

Section UpdateLemmas.
Local Open Scope R_scope.

(** The sum of the terms [g r] over the points of a reduction domain. *)
Lemma list_Rsum_app {P : Type} (l1 l2 : list P) (g : P -> R) :
  list_Rsum (l1 ++ l2) g = list_Rsum l1 g + list_Rsum l2 g.
Proof.
  induction l1 as [|r l1 IH]; simpl.
  - ring.
  - rewrite IH. ring.
Qed.

Lemma list_Rsum_map {P Q : Type} (h : P -> Q) (l : list P) (g : Q -> R) :
  list_Rsum (map h l) g = list_Rsum l (fun p => g (h p)).
Proof.
  induction l as [|r l IH]; simpl; [reflexivity | now rewrite IH].
Qed.

Lemma list_Rsum_zero {P : Type} (l : list P) (g : P -> R) :
  (forall r, In r l -> g r = 0) -> list_Rsum l g = 0.
Proof.
  induction l as [|r l IH]; simpl; intros E; [reflexivity|].
  rewrite (E r) by now left. rewrite IH; [ring|].
  intros r' Hr'. apply E. now right.
Qed.

Lemma list_Rsum_flat_map {P Q : Type} (h : P -> list Q) (l : list P)
    (g : Q -> R) :
  list_Rsum (flat_map h l) g = list_Rsum l (fun p => list_Rsum (h p) g).
Proof.
  induction l as [|r l IH]; simpl; [reflexivity|].
  now rewrite list_Rsum_app, IH.
Qed.

Lemma list_Rsum_seq (start len : nat) (g : nat -> R) :
  list_Rsum (seq start (S len)) g
  = list_Rsum (seq start len) g + g (start + len)%nat.
Proof.
  rewrite seq_S, list_Rsum_app. simpl. ring.
Qed.

Lemma list_Rsum_rdom (extent : Z) (g : Z -> R) :
  list_Rsum (Halide.rdom 0 extent) g = Sigma (Z.to_nat extent) g.
Proof.
  unfold Halide.rdom. rewrite list_Rsum_map.
  induction (Z.to_nat extent) as [|k IH].
  - reflexivity.
  - rewrite list_Rsum_seq, IH. simpl. reflexivity.
Qed.

Lemma list_Rsum_rdom2 (extent_x extent_y : Z) (g : Z * Z -> R) :
  list_Rsum (Halide.rdom2 0 extent_x 0 extent_y) g
  = Sigma (Z.to_nat extent_y)
      (fun y => Sigma (Z.to_nat extent_x) (fun x => g (x, y))).
Proof.
  unfold Halide.rdom2.
  rewrite list_Rsum_flat_map, list_Rsum_rdom.
  generalize (Z.to_nat extent_y) as ny.
  induction ny as [|k IH]; simpl; [reflexivity|].
  rewrite IH, list_Rsum_map, list_Rsum_rdom. reflexivity.
Qed.

Lemma Sigma_ext (n : nat) (f g : Z -> R) :
  (forall i, (0 <= i < Z.of_nat n)%Z -> f i = g i) -> Sigma n f = Sigma n g.
Proof.
  induction n as [|k IH]; simpl; intros E; [reflexivity|].
  rewrite IH, (E (Z.of_nat k)); [reflexivity | lia |].
  intros i Hi. apply E. lia.
Qed.

Lemma Sigma_plus (n : nat) (f g : Z -> R) :
  Sigma n (fun i => f i + g i) = Sigma n f + Sigma n g.
Proof.
  induction n as [|k IH]; simpl; [ring|]. rewrite IH. ring.
Qed.

Lemma Sigma_zero (n : nat) : Sigma n (fun _ => 0) = 0.
Proof.
  induction n as [|k IH]; simpl; [reflexivity|]. rewrite IH. ring.
Qed.

(** The two orders of summation over a rectangle agree. *)
Lemma Sigma_exchange (a b : nat) (g : Z -> Z -> R) :
  Sigma a (fun x => Sigma b (fun y => g x y))
  = Sigma b (fun y => Sigma a (fun x => g x y)).
Proof.
  induction a as [|k IH]; simpl.
  - now rewrite Sigma_zero.
  - rewrite Sigma_plus, IH. reflexivity.
Qed.

(** An update that adds a term at the point where [ev] looks, once per
    point of the domain, adds the sum of the terms. *)
Lemma update_accumulate {P F : Type} (ev : F -> R) (step : P -> F -> F)
    (term : P -> R) :
  (forall r f, ev (step r f) = ev f + term r) ->
  forall dom pure_def,
    ev (Halide.update dom step pure_def) = ev pure_def + list_Rsum dom term.
Proof.
  intros Hstep dom. unfold Halide.update.
  induction dom as [|r dom IH]; intros f0; simpl.
  - ring.
  - rewrite IH, Hstep. ring.
Qed.

Lemma In_rdom (min extent x : Z) :
  In x (Halide.rdom min extent) <-> (min <= x < min + extent)%Z.
Proof.
  unfold Halide.rdom. rewrite in_map_iff. split.
  - intros (i & <- & Hi). apply in_seq in Hi. lia.
  - intros Hx. exists (Z.to_nat (x - min)). split; [lia|].
    apply in_seq. lia.
Qed.

(** An update that writes [e] at coordinate [r] of the last dimension,
    for each [r] of the domain: the points of the domain hold [e], the
    others keep the pure definition. *)
Lemma update_write (e : Z -> Z -> Z -> R) (dom : list Z) :
  forall (pure_def : Z -> Z -> Z -> R) (a b s : Z),
    Halide.update dom
      (fun r f a b s => if (s =? r)%Z then e a b r else f a b s)
      pure_def a b s
    = if existsb (Z.eqb s) dom then e a b s else pure_def a b s.
Proof.
  unfold Halide.update.
  induction dom as [|r dom IH]; intros f0 a b s; simpl; [reflexivity|].
  rewrite IH. destruct (existsb (Z.eqb s) dom).
  - now rewrite orb_true_r.
  - rewrite orb_false_r. destruct (Z.eqb_spec s r) as [->|]; reflexivity.
Qed.

Lemma existsb_rdom (min extent s : Z) :
  existsb (Z.eqb s) (Halide.rdom min extent)
  = ((min <=? s) && (s <? min + extent))%Z.
Proof.
  apply eq_true_iff_eq. rewrite existsb_exists, andb_true_iff.
  rewrite Z.leb_le, Z.ltb_lt. split.
  - intros (x & Hx & E). apply Z.eqb_eq in E. subst x.
    now apply In_rdom in Hx.
  - intros Hs. exists s. split; [now apply In_rdom | apply Z.eqb_refl].
Qed.

End UpdateLemmas.

(** ** The feature normalizer *)

Section Normalizer.
Local Open Scope R_scope.
Import CostModel.

Lemma first_valid_eq (I : Inputs) :
  (1 <= num_stages I <= Int32.max_signed)%Z ->
  first_valid I = ((padded_stages I - num_stages I) / 2)%Z.
Proof.
  unfold first_valid, padded_stages, Int32.max, Int32.div, Int32.sub,
    Int32.max_signed.
  intros H.
  assert (Hd : (0 <= Z.max (num_stages I) 22 - num_stages I <= 21)%Z) by lia.
  rewrite (Int32_wrap_small (_ - _))
    by (unfold Int32.in_range, Int32.min_signed, Int32.max_signed; lia).
  assert (Hq : (0 <= (Z.max (num_stages I) 22 - num_stages I) / 2 <= 21)%Z).
  { split; [apply Z.div_pos; lia|].
    apply Z.div_le_upper_bound; lia. }
  rewrite Int32_wrap_small
    by (unfold Int32.in_range, Int32.min_signed, Int32.max_signed; lia).
  lia.
Qed.

Lemma normalized_pipeline_features_eq (I : Inputs) (c j s : Z) :
  normalized_pipeline_features I c j s
  = if ((first_valid I <=? s)
        && (s <? first_valid I + num_stages I))%Z
    then (pipeline_features I c j (s - first_valid I)%Z
          - pipeline_mean I c j)
         / Rmax 1e-8 (pipeline_std I c j)
    else 0.
Proof.
  unfold normalized_pipeline_features, r_s.
  rewrite (update_write
             (fun c j r =>
                (pipeline_features I c j (r - first_valid I)%Z
                 - pipeline_mean I c j)
                / Rmax 1e-8 (pipeline_std I c j))).
  now rewrite existsb_rdom.
Qed.

Lemma normalized_schedule_features_eq (fast_log : R -> R) (I : Inputs)
    (n c s : Z) :
  normalized_schedule_features fast_log I n c s
  = if ((first_valid I <=? s)
        && (s <? first_valid I + num_stages I))%Z
    then (fast_log (schedule_features I n c (s - first_valid I)%Z + 1)
          - schedule_mean I c)
         / Rmax 1e-8 (schedule_std I c)
    else 0.
Proof.
  unfold normalized_schedule_features, r_s.
  rewrite (update_write
             (fun n c r =>
                (fast_log (schedule_features I n c (r - first_valid I)%Z + 1)
                 - schedule_mean I c)
                / Rmax 1e-8 (schedule_std I c))).
  now rewrite existsb_rdom.
Qed.

Lemma in_window_true (lo len s : Z) :
  (lo <= s < lo + len)%Z -> ((lo <=? s) && (s <? lo + len))%Z = true.
Proof. intros H. apply andb_true_iff. rewrite Z.leb_le, Z.ltb_lt. lia. Qed.

Lemma in_window_false (lo len s : Z) :
  ~ (lo <= s < lo + len)%Z -> ((lo <=? s) && (s <? lo + len))%Z = false.
Proof.
  intros H. apply andb_false_iff. rewrite Z.leb_gt, Z.ltb_ge. lia.
Qed.



End Normalizer.

(** C3.  For every [num_stages >= 1] the pipeline-feature normalizer works in
    a stage window of [padded_stages = max(num_stages, 22)] positions with
    [first_valid = floor((padded_stages - num_stages) / 2)]; the valid window
    [first_valid, first_valid + num_stages) lies inside [0, padded_stages);
    inside it the value is
    [(raw[c,j,s-first_valid] - mean[c,j]) / max(std[c,j], 1e-8)] and outside
    it the value is exactly 0.  [first_valid] is 0 for 22 stages, 6 for 10
    stages, and for 30 stages [padded_stages] is 30 and [first_valid] is 0. *)
Theorem C3_pipeline_normalizer (I : Inputs) (c j s : Z) :
  (1 <= num_stages I <= Int32.max_signed)%Z ->
  let P := CostModel.padded_stages I in
  let fv := CostModel.first_valid I in
  P = Z.max (num_stages I) 22 /\
  fv = ((P - num_stages I) / 2)%Z /\
  (0 <= fv /\ fv + num_stages I <= P)%Z /\
  ((fv <= s < fv + num_stages I)%Z ->
   CostModel.normalized_pipeline_features I c j s
   = ((pipeline_features I c j (s - fv)%Z - pipeline_mean I c j)
      / Rmax (pipeline_std I c j) 1e-8)%R) /\
  (~ (fv <= s < fv + num_stages I)%Z ->
   CostModel.normalized_pipeline_features I c j s = 0%R) /\
  (num_stages I = 22%Z -> fv = 0%Z) /\
  (num_stages I = 10%Z -> fv = 6%Z) /\
  (num_stages I = 30%Z -> P = 30%Z /\ fv = 0%Z).
Proof.
  intros Hn P fv.
  assert (HP : P = Z.max (num_stages I) 22) by reflexivity.
  assert (Hfv : fv = ((P - num_stages I) / 2)%Z)
    by (apply first_valid_eq; exact Hn).
  split; [exact HP|]. split; [exact Hfv|].
  assert (Hlo : (0 <= fv)%Z).
  { rewrite Hfv. apply Z.div_pos; lia. }
  assert (Hhi : (fv + num_stages I <= P)%Z).
  { rewrite Hfv.
    pose proof (Z.mul_div_le (P - num_stages I) 2 ltac:(lia)). lia. }
  split; [split; assumption|].
  split.
  { intros Hs. rewrite normalized_pipeline_features_eq.
    fold fv. rewrite in_window_true by exact Hs.
    now rewrite (Rmax_comm 1e-8). }
  split.
  { intros Hs. rewrite normalized_pipeline_features_eq.
    fold fv. now rewrite in_window_false by exact Hs. }
  split; [|split].
  - intros E. rewrite Hfv, HP, E. reflexivity.
  - intros E. rewrite Hfv, HP, E. reflexivity.
  - intros E. rewrite Hfv, HP, E. split; reflexivity.
Qed.

(** C4.  At a stage position inside the valid window the schedule path
    outputs [(log(raw[n,c,s] + 1) - mean[c]) / max(std[c], 1e-8)], where
    [raw] is read at the position shifted back by [first_valid]: logarithm of
    [raw + 1] first, then the channel mean subtracted, then the division by
    the floored channel std. *)
Theorem C4_schedule_normalizer (fast_log : R -> R) (I : Inputs) (n c s : Z) :
  (CostModel.first_valid I <= s
   < CostModel.first_valid I + num_stages I)%Z ->
  CostModel.normalized_schedule_features fast_log I n c s
  = ((fast_log (schedule_features I n c (s - CostModel.first_valid I)%Z + 1)
      - schedule_mean I c)
     / Rmax (schedule_std I c) 1e-8)%R.
Proof.
  intros Hs. rewrite normalized_schedule_features_eq.
  rewrite in_window_true by exact Hs.
  now rewrite (Rmax_comm 1e-8).
Qed.

(** The divisor of the whitening in Float(32): for every std that is a
    number it is the floor [1e-8f] or a std above the floor, hence neither
    zero nor NaN; for a std that is zero or negative it is the floor. *)
Lemma whitening_divisor_f32 (std : spec_float) :
  std <> S754_nan ->
  (Float32.max Float32.floor_1e_8 std = Float32.floor_1e_8 \/
   (Float32.max Float32.floor_1e_8 std = std /\
    SFltb Float32.floor_1e_8 std = true)) /\
  (forall s, Float32.max Float32.floor_1e_8 std <> S754_zero s) /\
  Float32.max Float32.floor_1e_8 std <> S754_nan /\
  (SFleb std (S754_zero false) = true ->
   Float32.max Float32.floor_1e_8 std = Float32.floor_1e_8).
Proof.
  intros Hnan. unfold Float32.max.
  destruct (SFltb Float32.floor_1e_8 std) eqn:Hlt.
  - split; [right; split; reflexivity|].
    split; [|split].
    + intros s E. rewrite E in Hlt. discriminate Hlt.
    + exact Hnan.
    + intros Hle. exfalso.
      destruct std as [s | s | | s m e]; try discriminate Hlt.
      * destruct s; discriminate.
      * destruct s; [discriminate Hlt | discriminate Hle].
  - split; [left; reflexivity|].
    split; [|split]; [intros s E; discriminate E | discriminate | reflexivity].
Qed.



(** C10.  The inference pipeline defines its loss output as the constant 0,
    whatever the inputs and weights; the batch-mean squared error appears in
    the training pipeline only, and inference has no weight outputs. *)
Theorem C10_inference_loss_zero (fast_log : R -> R) (I : Inputs)
    (W : Weights) :
  exists out : Outputs,
    CostModelInference fast_log I W = Success out /\
    loss_output out = 0%R /\
    updated out = [].
Proof.
  eexists. split; [reflexivity|]. split; reflexivity.
Qed.

(** ** The trunk and the aggregator *)

Section Trunk.
Local Open Scope R_scope.
Import CostModel.

Lemma pad_stages3_eq (f : Z -> Z -> Z -> R) (stages n c w : Z) :
  pad_stages f stages n c w
  = if ((0 <=? w) && (w <? 0 + stages))%Z then f n c w else 0.
Proof. reflexivity. Qed.

Lemma conv3_eq (fast_log : R -> R) (I : Inputs) (W : Weights) (n c w : Z) :
  conv3 fast_log I W n c w
  = bias3 W [c]
    + list_Rsum r3
        (fun r => filter3 W [c; fst r; snd r]
                  * relu2_padded fast_log I W n (fst r) (w + snd r - 1)%Z).
Proof.
  unfold conv3.
  apply (update_accumulate (fun f : Z -> Z -> Z -> R => f n c w)).
  reflexivity.
Qed.

Lemma pool3_stages_eq (I : Inputs) :
  (num_stages I <= Int32.max_signed)%Z ->
  pool3_stages I = (padded_stages I / 2 + 1)%Z.
Proof.
  unfold pool3_stages, padded_stages, Int32.add, Int32.div, Int32.max,
    Int32.max_signed.
  intros H.
  assert (Hq : (11 <= Z.max (num_stages I) 22 / 2 <= 2 ^ 30)%Z).
  { split; [apply Z.div_le_lower_bound; lia|].
    apply Z.div_le_upper_bound; lia. }
  rewrite (Int32_wrap_small (_ / _))
    by (unfold Int32.in_range, Int32.min_signed, Int32.max_signed; lia).
  rewrite Int32_wrap_small
    by (unfold Int32.in_range, Int32.min_signed, Int32.max_signed; lia).
  reflexivity.
Qed.

Lemma pool4_stages_eq (I : Inputs) :
  (num_stages I <= Int32.max_signed - 6)%Z ->
  pool4_stages I = ((padded_stages I + 6) / 4)%Z.
Proof.
  unfold pool4_stages, padded_stages, Int32.add, Int32.div, Int32.max,
    Int32.max_signed.
  intros H.
  assert (Hq : (7 <= (Z.max (num_stages I) 22 + 6) / 4 <= 2 ^ 30)%Z).
  { split; [apply Z.div_le_lower_bound; lia|].
    apply Z.div_le_upper_bound; lia. }
  rewrite (Int32_wrap_small (_ + _))
    by (unfold Int32.in_range, Int32.min_signed, Int32.max_signed; lia).
  rewrite Int32_wrap_small
    by (unfold Int32.in_range, Int32.min_signed, Int32.max_signed; lia).
  reflexivity.
Qed.

Lemma pool_stages_halving (P : Z) :
  ((P + 6) / 4 = (P / 2 + 1) / 2 + 1)%Z.
Proof.
  pose proof (Z.div_mod P 2 ltac:(lia)).
  pose proof (Z.mod_pos_bound P 2 ltac:(lia)).
  pose proof (Z.div_mod (P + 6) 4 ltac:(lia)).
  pose proof (Z.mod_pos_bound (P + 6) 4 ltac:(lia)).
  pose proof (Z.div_mod (P / 2 + 1) 2 ltac:(lia)).
  pose proof (Z.mod_pos_bound (P / 2 + 1) 2 ltac:(lia)).
  lia.
Qed.

End Trunk.

(** C6.  For every batch element [n] the prediction is the plain sum of
    [relu6(n, w)] over the stage positions [w] of
    [0, (padded_stages + 6) / 4), the division being integer division;
    nothing divides the sum by the number of positions. *)
Theorem C6_prediction_is_sum (fast_log : R -> R) (d_loss_d : Derivative)
    (training : bool) (I : Inputs) (W : Weights) (n : Z) :
  (num_stages I <= Int32.max_signed - 6)%Z ->
  prediction_output (CostModel.generate fast_log d_loss_d training I W) n
  = Sigma (Z.to_nat ((CostModel.padded_stages I + 6) / 4))
      (fun w => CostModel.relu6 fast_log I W n w).
Proof.
  intros Hn. simpl. unfold CostModel.prediction, CostModel.r_reduce.
  rewrite (update_accumulate (fun f : Z -> R => f n)
             (fun r f n => (f n + CostModel.relu6 fast_log I W n r)%R)
             (fun r => CostModel.relu6 fast_log I W n r))
    by reflexivity.
  rewrite list_Rsum_rdom, pool4_stages_eq by exact Hn.
  ring.
Qed.

(** C7.  In trunk layer 1 the value before the activation is, for every
    batch element [n], channel [c] and stage [w], [bias1[c]] plus the sum
    over [x < 24], [k < 3] of [filter1[c,x,k] * pipelineHead[x,w+k-1]]
    (which does not mention [n]) plus the sum over [x < 24], [k < 3] of
    [filter1[c,24+x,k] * scheduleHead[n,x,w+k-1]]. *)
Theorem C7_conv1_channel_split (fast_log : R -> R) (I : Inputs) (W : Weights)
    (n c w : Z) :
  CostModel.weight_shapes W ->
  CostModel.conv1_stage2 fast_log I W n c w
  = (bias1 W [c]
     + Sigma 24 (fun x => Sigma 3 (fun k =>
         filter1 W [c; x; k]
         * CostModel.head1_relu_padded I W x (w + k - 1)%Z))
     + Sigma 24 (fun x => Sigma 3 (fun k =>
         filter1 W [c; (24 + x)%Z; k]
         * CostModel.head2_relu_padded fast_log I W n x (w + k - 1)%Z)))%R.
Proof.
  intros (Hshape & _).
  destruct Hshape as (Hext & _).
  unfold CostModel.conv1_stage2, CostModel.r1_stage2.
  rewrite (update_accumulate (fun f : Z -> Z -> Z -> R => f n c w)
             (fun r f n c w =>
                (f n c w
                 + filter1 W [c; (extent (head1_filter W) 0 + fst r)%Z; snd r]
                   * CostModel.head2_relu_padded fast_log I W n (fst r)
                       (w + snd r - 1)%Z)%R)
             (fun r =>
                (filter1 W [c; (extent (head1_filter W) 0 + fst r)%Z; snd r]
                 * CostModel.head2_relu_padded fast_log I W n (fst r)
                     (w + snd r - 1)%Z)%R))
    by reflexivity.
  unfold CostModel.conv1_stage1, CostModel.r1_stage1.
  rewrite (update_accumulate (fun f : Z -> Z -> R => f c w)
             (fun r f c w =>
                (f c w
                 + filter1 W [c; fst r; snd r]
                   * CostModel.head1_relu_padded I W (fst r)
                       (w + snd r - 1)%Z)%R)
             (fun r =>
                (filter1 W [c; fst r; snd r]
                 * CostModel.head1_relu_padded I W (fst r)
                     (w + snd r - 1)%Z)%R))
    by reflexivity.
  rewrite !list_Rsum_rdom2, Hext. simpl fst. simpl snd.
  rewrite (Sigma_exchange 24 3), (Sigma_exchange 24 3).
  reflexivity.
Qed.

(** ** The loss and the ADAM update *)

Section Training.
Local Open Scope R_scope.

Lemma sum_rdom (extent : Z) (e : Z -> R) :
  Halide.sum (Halide.rdom 0 extent) e = Sigma (Z.to_nat extent) e.
Proof.
  unfold Halide.sum.
  rewrite (update_accumulate (fun acc : R => acc)
             (fun r acc => acc + e r) e) by reflexivity.
  rewrite list_Rsum_rdom. ring.
Qed.

Lemma pow_next_timestep (x : R) (t : Z) :
  (0 <= t < Int32.max_signed)%Z ->
  Halide.pow x (Int32.add t 1) = x ^ Z.to_nat (t + 1).
Proof.
  intros Ht. unfold Halide.pow, Int32.add.
  rewrite Int32_wrap_small
    by (unfold Int32.in_range, Int32.min_signed, Int32.max_signed in *; lia).
  rewrite pow_powerRZ, Z2Nat.id by lia. reflexivity.
Qed.

Lemma pow_2 (x : R) : Halide.pow x 2 = x * x.
Proof. unfold Halide.pow. simpl. ring. Qed.

Lemma backprop_planes (name : string) (self : ModelWeight) (d : Derivative)
    (lr : R) (t : Z) (args : list Z) :
  let grad := ModelWeightTraining.backprop name self d lr t in
  let g := d name args in
  let m := 0.9 * grad_in self args 1 + 0.1 * g in
  let v := 0.999 * grad_in self args 2 + 0.001 * Halide.pow g 2 in
  grad args 0%Z
  = self args
    - lr * m * ModelWeightTraining.smoothed_deriv_correction t
      / (sqrt (v * ModelWeightTraining.smoothed_second_moment_correction t)
         + 1e-8) /\
  grad args 1%Z = m /\
  grad args 2%Z = v /\
  grad args 3%Z = g.
Proof.
  unfold ModelWeightTraining.backprop, ModelWeightTraining.set_plane.
  simpl. repeat split; reflexivity.
Qed.

End Training.

(** C2.  In training mode, for every batch size [B >= 1], the loss output is
    [(1/B)] times the sum over [n < B] of
    [(prediction[n] - true_runtime[n])²]. *)
Theorem C2_loss_is_batch_mean (fast_log : R -> R) (d_loss_d : Derivative)
    (I : Inputs) (W : Weights) :
  (1 <= batch_size I)%Z ->
  let out := CostModel.generate fast_log d_loss_d true I W in
  loss_output out
  = (1 / IZR (batch_size I)
     * Sigma (Z.to_nat (batch_size I))
         (fun n => (prediction_output out n - true_runtime I n) ^ 2))%R.
Proof.
  intros HB out. subst out.
  unfold CostModel.generate. cbn [loss_output prediction_output negb].
  unfold CostModel.loss, CostModel.r_batch. rewrite sum_rdom.
  unfold CostModel.err, Rdiv.
  rewrite (Sigma_ext _ _
             (fun n => ((CostModel.prediction fast_log I W n
                         - true_runtime I n) ^ 2)%R)).
  - ring.
  - intros i _. ring.
Qed.

(** C1.  One call of the training pipeline uses the timestep [t] it is given
    for every one of its sixteen weights, each with its own gradient.  For
    each of the sixteen named weights, listed below with the tensor it
    names, and each entry [args] of it, with [g] the loss gradient of that
    weight's entry, [m_prev] and [v_prev] the moments the caller passed in
    planes 1 and 2 of the weight's output buffer, the call has sixteen
    updated buffers, and the buffer at the weight's position holds in its
    four planes [theta_new], [m], [v] and [g], where
    [m = 0.9 m_prev + 0.1 g], [v = 0.999 v_prev + 0.001 g²] and
    [theta_new = theta - lr (m / (1 - 0.9^(t+1)))
                         / (sqrt (v / (1 - 0.999^(t+1))) + 1e-8)]. *)
Theorem C1_adam_update (fast_log : R -> R) (d_loss_d : Derivative)
    (I : Inputs) (W : Weights) (i : nat) (name : string)
    (theta : ModelWeight) (args : list Z) :
  (0 <= timestep I < Int32.max_signed)%Z ->
  nth_error
    [ ("head1_filter", head1_filter W); ("head1_bias", head1_bias W);
      ("head2_filter", head2_filter W); ("head2_bias", head2_bias W);
      ("filter1", filter1 W); ("bias1", bias1 W);
      ("filter2", filter2 W); ("bias2", bias2 W);
      ("filter3", filter3 W); ("bias3", bias3 W);
      ("filter4", filter4 W); ("bias4", bias4 W);
      ("filter5", filter5 W); ("bias5", bias5 W);
      ("filter6", filter6 W); ("bias6", bias6 W) ]%string i
  = Some (name, theta) ->
  let t1 := Z.to_nat (timestep I + 1) in
  let lr := learning_rate I in
  let g := d_loss_d name args in
  let m_prev := grad_in theta args 1%Z in
  let v_prev := grad_in theta args 2%Z in
  let m := (0.9 * m_prev + 0.1 * g)%R in
  let v := (0.999 * v_prev + 0.001 * g ^ 2)%R in
  exists (out : Outputs) (grad : list Z -> Z -> R),
    CostModelTraining fast_log d_loss_d I W = Success out /\
    List.length (updated out) = 16%nat /\
    nth_error (updated out) i = Some grad /\
    grad args 0%Z
    = (theta args
       - lr * (m / (1 - 0.9 ^ t1))
         / (sqrt (v / (1 - 0.999 ^ t1)) + 1e-8))%R /\
    grad args 1%Z = m /\
    grad args 2%Z = v /\
    grad args 3%Z = g.
Proof.
  intros Ht Hi t1 lr g m_prev v_prev m v.
  exists (CostModel.generate fast_log d_loss_d true I W).
  exists (ModelWeightTraining.backprop name theta d_loss_d lr (timestep I)).
  split; [reflexivity|].
  split; [reflexivity|].
  split.
  { exact (map_nth_error
             (fun w => ModelWeightTraining.backprop (fst w) (snd w) d_loss_d
                         lr (timestep I))
             i (CostModel.weights W) Hi). }
  destruct (backprop_planes name theta d_loss_d lr (timestep I) args)
    as (H0 & H1 & H2 & H3).
  assert (Hv : (0.999 * grad_in theta args 2
                + 0.001 * Halide.pow (d_loss_d name args) 2)%R = v).
  { rewrite pow_2. unfold v, v_prev, g. ring. }
  rewrite Hv in *.
  split; [|split; [|split]]; try assumption.
  rewrite H0.
  unfold ModelWeightTraining.smoothed_deriv_correction,
    ModelWeightTraining.smoothed_second_moment_correction.
  rewrite !pow_next_timestep by exact Ht.
  fold t1 g m_prev m.
  replace (v * (1 / (1 - 0.999 ^ t1)))%R with (v / (1 - 0.999 ^ t1))%R
    by (unfold Rdiv; ring).
  unfold Rdiv. ring.
Qed.

(** ** Pooling *)

Section Pooling.
Local Open Scope R_scope.
Import CostModel.

Lemma activation_1 : activation 1 = 1 + 1e-5.
Proof. unfold activation. rewrite Rmax_right by lra. ring. Qed.

Lemma example_conv3 (fast_log : R -> R) (I : Inputs) (b : R) (n c w : Z) :
  conv3 fast_log I (example_weights b) n c w = b.
Proof.
  rewrite conv3_eq, list_Rsum_zero.
  - cbn [bias3 example_weights example_weight value]. ring.
  - intros r _. cbn [filter3 example_weights example_weight value]. ring.
Qed.

(** The window of [floor(P/2) + 1] positions holds every pooled value that
    can differ from zero: the re-padding of [pool3] discards nothing. *)
Lemma pool3_support (fast_log : R -> R) (I : Inputs) (W : Weights)
    (n c w : Z) :
  ~ (0 <= w < padded_stages I / 2 + 1)%Z ->
  pool3 fast_log I W n c w = 0.
Proof.
  intros Hw. unfold pool3, relu3_padded.
  pose proof (Z.div_mod (padded_stages I) 2 ltac:(lia)) as Hd.
  pose proof (Z.mod_pos_bound (padded_stages I) 2 ltac:(lia)) as Hm.
  rewrite !pad_stages3_eq, !in_window_false by lia.
  lra.
Qed.

End Pooling.

(** C5, as the spec states it, fails for 22 padded stages: position 11 is
    outside a window of ceil(22/2) = 11 positions, yet the first pooled and
    re-padded tensor is not zero there; the code's windows have 12 and 7
    positions where rounding up would give 11 and 6. *)
Lemma C5_counterexample :
  CostModel.padded_stages (example_inputs 22 1) = 22%Z /\
  ~ (0 <= 11 < ceil_half (CostModel.padded_stages (example_inputs 22 1)))%Z /\
  CostModel.pool3_padded ln (example_inputs 22 1) (example_weights 1) 0 0 11
  <> 0%R /\
  CostModel.pool3_stages (example_inputs 22 1)
  <> ceil_half (CostModel.padded_stages (example_inputs 22 1)) /\
  CostModel.pool4_stages (example_inputs 22 1)
  <> ceil_half (ceil_half (CostModel.padded_stages (example_inputs 22 1))).
Proof.
  assert (HP : CostModel.padded_stages (example_inputs 22 1) = 22%Z)
    by reflexivity.
  assert (H3 : CostModel.pool3_stages (example_inputs 22 1) = 12%Z)
    by reflexivity.
  assert (H4 : CostModel.pool4_stages (example_inputs 22 1) = 7%Z)
    by reflexivity.
  split; [exact HP|].
  split; [rewrite HP; change (ceil_half 22) with 11%Z; lia|].
  split.
  - unfold CostModel.pool3_padded. rewrite pad_stages3_eq, H3.
    change ((0 <=? 11) && (11 <? 0 + 12))%Z with true. cbv iota.
    unfold CostModel.pool3, CostModel.relu3_padded.
    rewrite !pad_stages3_eq, HP.
    change (11 * 2 - 1)%Z with 21%Z. change (11 * 2)%Z with 22%Z.
    change ((0 <=? 21) && (21 <? 0 + 22))%Z with true.
    change ((0 <=? 22) && (22 <? 0 + 22))%Z with false. cbv iota.
    unfold CostModel.relu3. rewrite example_conv3, activation_1. lra.
  - rewrite H3, H4, HP. change (ceil_half 22) with 11%Z.
    change (ceil_half 11) with 6%Z. split; lia.
Qed.

(** C5, amended.  Each of the two average-pooling steps computes
    [pool[n,c,w] = 0.5 (in[n,c,2w-1] + in[n,c,2w])] from an input that is zero
    outside its window, and is re-padded with zeros outside a window of
    [floor(E/2) + 1] positions, [E] being the extent of the input's window:
    [floor(padded_stages/2) + 1] after the first pooling and
    [(padded_stages + 6) / 4] after the second. *)
Theorem C5_pooling_windows (fast_log : R -> R) (I : Inputs) (W : Weights)
    (n c w : Z) :
  (num_stages I <= Int32.max_signed - 6)%Z ->
  let P := CostModel.padded_stages I in
  let E1 := (P / 2 + 1)%Z in
  let E2 := (E1 / 2 + 1)%Z in
  CostModel.pool3 fast_log I W n c w
  = (0.5 * (CostModel.relu3_padded fast_log I W n c (2 * w - 1)%Z
            + CostModel.relu3_padded fast_log I W n c (2 * w)%Z))%R /\
  CostModel.pool4 fast_log I W n c w
  = (0.5 * (CostModel.relu4_padded fast_log I W n c (2 * w - 1)%Z
            + CostModel.relu4_padded fast_log I W n c (2 * w)%Z))%R /\
  (~ (0 <= w < P)%Z -> CostModel.relu3_padded fast_log I W n c w = 0%R) /\
  (~ (0 <= w < E1)%Z -> CostModel.relu4_padded fast_log I W n c w = 0%R) /\
  E2 = ((P + 6) / 4)%Z /\
  ((0 <= w < E1)%Z ->
   CostModel.pool3_padded fast_log I W n c w
   = CostModel.pool3 fast_log I W n c w) /\
  (~ (0 <= w < E1)%Z -> CostModel.pool3_padded fast_log I W n c w = 0%R) /\
  ((0 <= w < E2)%Z ->
   CostModel.pool4_padded fast_log I W n c w
   = CostModel.pool4 fast_log I W n c w) /\
  (~ (0 <= w < E2)%Z -> CostModel.pool4_padded fast_log I W n c w = 0%R).
Proof.
  intros Hn P E1 E2.
  assert (H3 : CostModel.pool3_stages I = E1)
    by (apply pool3_stages_eq; lia).
  assert (HE : E2 = ((P + 6) / 4)%Z)
    by (symmetry; apply pool_stages_halving).
  assert (H4 : CostModel.pool4_stages I = E2)
    by (rewrite HE; apply pool4_stages_eq; exact Hn).
  unfold CostModel.pool3_padded, CostModel.pool4_padded,
    CostModel.relu3_padded, CostModel.relu4_padded.
  rewrite H3, H4. fold P.
  repeat split.
  - unfold CostModel.pool3, CostModel.relu3_padded.
    now rewrite (Z.mul_comm w 2).
  - unfold CostModel.pool4, CostModel.relu4_padded.
    now rewrite (Z.mul_comm w 2), H3.
  - intros Hw. rewrite pad_stages3_eq. now rewrite in_window_false by lia.
  - intros Hw. rewrite pad_stages3_eq. now rewrite in_window_false by lia.
  - exact HE.
  - intros Hw. rewrite pad_stages3_eq. now rewrite in_window_true by lia.
  - intros Hw. rewrite pad_stages3_eq. now rewrite in_window_false by lia.
  - intros Hw. rewrite pad_stages3_eq. now rewrite in_window_true by lia.
  - intros Hw. rewrite pad_stages3_eq. now rewrite in_window_false by lia.
Qed.

(** ** Calls with a non-positive stage count *)

(** C9, as the spec states it, fails: with [num_stages = 0] neither pipeline
    reports [InvalidConfiguration]; both return their outputs. *)
Lemma C9_counterexample :
  (num_stages (example_inputs 0 1) <= 0)%Z /\
  CostModelInference ln (example_inputs 0 1) (example_weights 1)
  <> Failure InvalidConfiguration /\
  CostModelTraining ln example_derivative (example_inputs 0 1)
    (example_weights 1)
  <> Failure InvalidConfiguration /\
  exists out : Outputs,
    CostModelInference ln (example_inputs 0 1) (example_weights 1)
    = Success out.
Proof.
  split; [simpl; lia|].
  split; [discriminate|].
  split; [discriminate|].
  eexists. reflexivity.
Qed.

(** C9, amended.  The pipelines do not validate [num_stages]: a call with
    [num_stages <= 0] returns its outputs like any other call (the prediction
    of the network, and in training mode the sixteen updated weights).  The
    valid window is then empty, so both normalized feature tensors are zero
    everywhere. *)
Theorem C9_no_validation (fast_log : R -> R) (d_loss_d : Derivative)
    (I : Inputs) (W : Weights) :
  (num_stages I <= 0)%Z ->
  (exists out : Outputs,
     CostModelInference fast_log I W = Success out /\
     forall n, prediction_output out n = CostModel.prediction fast_log I W n) /\
  (exists out : Outputs,
     CostModelTraining fast_log d_loss_d I W = Success out /\
     (forall n, prediction_output out n = CostModel.prediction fast_log I W n) /\
     List.length (updated out) = 16%nat) /\
  (forall c j s, CostModel.normalized_pipeline_features I c j s = 0%R) /\
  (forall n c s,
     CostModel.normalized_schedule_features fast_log I n c s = 0%R).
Proof.
  intros Hn.
  split; [eexists; split; [reflexivity | reflexivity]|].
  split; [eexists; split; [reflexivity | split; reflexivity]|].
  split.
  - intros c j s. rewrite normalized_pipeline_features_eq.
    now rewrite in_window_false by lia.
  - intros n c s. rewrite normalized_schedule_features_eq.
    now rewrite in_window_false by lia.
Qed.

(** ** The properties at concrete inputs *)

Lemma Sigma_zero_terms (a b : nat) (f : Z -> Z -> R) :
  Sigma a (fun x => Sigma b (fun k => (0 * f x k)%R)) = 0%R.
Proof.
  rewrite <- (Sigma_zero a) at 1. apply Sigma_ext. intros x _.
  rewrite <- (Sigma_zero b) at 1. apply Sigma_ext. intros k _. ring.
Qed.

Lemma C1_witness :
  exists grad : list Z -> Z -> R,
    nth_error
      (updated (CostModel.generate ln bias6_derivative true
                  (example_inputs_at 5)
                  (with_bias6 (example_weights 1)
                     (example_weight_with_moments 2 0.5 0.25)))) 15
    = Some grad /\
    grad [] 0%Z
    = (2 - 0.01 * ((0.9 * 0.5 + 0.1 * 1) / (1 - 0.9 ^ 6))
           / (sqrt ((0.999 * 0.25 + 0.001 * 1 ^ 2) / (1 - 0.999 ^ 6))
              + 1e-8))%R /\
    grad [] 1%Z = (0.9 * 0.5 + 0.1 * 1)%R /\
    grad [] 2%Z = (0.999 * 0.25 + 0.001 * 1 ^ 2)%R /\
    grad [] 3%Z = 1%R.
Proof.
  assert (Ht : (0 <= timestep (example_inputs_at 5) < Int32.max_signed)%Z)
    by (unfold Int32.max_signed; simpl; lia).
  destruct (C1_adam_update ln bias6_derivative (example_inputs_at 5)
              (with_bias6 (example_weights 1)
                 (example_weight_with_moments 2 0.5 0.25))
              15 "bias6"%string (example_weight_with_moments 2 0.5 0.25)
              [] Ht eq_refl)
    as (out & grad & Hout & _ & Hnth & H0 & H1 & H2 & H3).
  injection Hout as <-.
  exists grad.
  split; [exact Hnth|].
  split; [exact H0|].
  split; [exact H1|].
  split; [exact H2 | exact H3].
Defined.

Lemma C2_witness :
  loss_output (CostModel.generate ln example_derivative true
                 (example_inputs 22 1) (example_weights 1))
  = (1 / 1
     * Sigma 1
         (fun n =>
            (CostModel.prediction ln (example_inputs 22 1)
               (example_weights 1) n - 0) ^ 2))%R.
Proof.
  apply (C2_loss_is_batch_mean ln example_derivative (example_inputs 22 1)
           (example_weights 1)).
  simpl. lia.
Defined.

Lemma C3_witness :
  CostModel.padded_stages (example_inputs 10 1) = 22%Z /\
  CostModel.first_valid (example_inputs 10 1) = 6%Z /\
  CostModel.normalized_pipeline_features (example_inputs 10 1) 0 0 6
  = ((1 - 0) / Rmax 0 1e-8)%R /\
  CostModel.normalized_pipeline_features (example_inputs 10 1) 0 0 16 = 0%R.
Proof.
  assert (Hn : (1 <= num_stages (example_inputs 10 1)
                <= Int32.max_signed)%Z)
    by (unfold Int32.max_signed; simpl; lia).
  destruct (C3_pipeline_normalizer (example_inputs 10 1) 0 0 6 Hn)
    as (HP & _ & _ & Hin & _ & _ & H10 & _).
  destruct (C3_pipeline_normalizer (example_inputs 10 1) 0 0 16 Hn)
    as (_ & _ & _ & _ & Hout & _).
  split; [exact HP|].
  split; [apply H10; reflexivity|].
  split.
  - apply Hin. vm_compute. split; [discriminate | reflexivity].
  - apply Hout. vm_compute. intros [_ H]. discriminate H.
Defined.

Lemma C4_witness :
  CostModel.normalized_schedule_features ln (example_inputs 10 1) 0 0 6
  = ((ln (1 + 1) - 0) / Rmax 0 1e-8)%R.
Proof.
  apply (C4_schedule_normalizer ln (example_inputs 10 1) 0 0 6).
  vm_compute. split; [discriminate | reflexivity].
Defined.

Lemma C5_witness :
  CostModel.pool3_padded ln (example_inputs 22 1) (example_weights 1) 0 0 12
  = 0%R /\
  CostModel.pool4_padded ln (example_inputs 22 1) (example_weights 1) 0 0 7
  = 0%R.
Proof.
  assert (Hn : (num_stages (example_inputs 22 1)
                <= Int32.max_signed - 6)%Z)
    by (unfold Int32.max_signed; simpl; lia).
  destruct (C5_pooling_windows ln (example_inputs 22 1) (example_weights 1)
              0 0 12 Hn)
    as (_ & _ & _ & _ & _ & _ & H3 & _).
  destruct (C5_pooling_windows ln (example_inputs 22 1) (example_weights 1)
              0 0 7 Hn)
    as (_ & _ & _ & _ & _ & _ & _ & _ & H4).
  split.
  - apply H3. vm_compute. intros [_ H]. discriminate H.
  - apply H4. vm_compute. intros [_ H]. discriminate H.
Defined.

Lemma C6_witness :
  prediction_output
    (CostModel.generate ln example_derivative false (example_inputs 22 1)
       (example_weights 1)) 0
  = Sigma 7
      (fun w =>
         CostModel.relu6 ln (example_inputs 22 1) (example_weights 1) 0 w).
Proof.
  apply (C6_prediction_is_sum ln example_derivative false
           (example_inputs 22 1) (example_weights 1) 0).
  unfold Int32.max_signed. simpl. lia.
Defined.

Lemma C7_witness :
  CostModel.conv1_stage2 ln (example_inputs 22 1) (example_weights 1) 0 0 0
  = 1%R.
Proof.
  assert (Hshape : CostModel.weight_shapes (example_weights 1)).
  { unfold CostModel.weight_shapes, set_shape.
    repeat match goal with |- _ /\ _ => split end; try reflexivity;
      intros _; reflexivity. }
  rewrite (C7_conv1_channel_split ln (example_inputs 22 1)
             (example_weights 1) 0 0 0 Hshape).
  cbn [filter1 bias1 example_weights example_weight value].
  rewrite !Sigma_zero_terms. ring.
Defined.


Lemma C9_witness :
  CostModel.normalized_pipeline_features (example_inputs 0 1) 0 0 11 = 0%R /\
  CostModel.normalized_schedule_features ln (example_inputs 0 1) 0 0 11
  = 0%R.
Proof.
  assert (Hn : (num_stages (example_inputs 0 1) <= 0)%Z) by (simpl; lia).
  destruct (C9_no_validation ln example_derivative (example_inputs 0 1)
              (example_weights 1) Hn)
    as (_ & _ & Hp & Hsch).
  split; [apply Hp | apply Hsch].
Defined.

(** ** Further properties of the activation and of the stage window *)

(** The activation [max(0, e) + 1e-5 e] is strictly increasing. *)
Theorem activation_strictly_increasing (x y : R) :
  (x < y)%R -> (CostModel.activation x < CostModel.activation y)%R.
Proof.
  intros Hxy. unfold CostModel.activation.
  pose proof (Rle_max_compat_l x y 0 ltac:(lra)). lra.
Qed.

Lemma activation_strictly_increasing_witness :
  (CostModel.activation (-1) < CostModel.activation 0)%R.
Proof. apply (activation_strictly_increasing (-1) 0). lra. Defined.

(** The activation scales a non-negative input by [1 + 1e-5] and a
    non-positive one by [1e-5]: a negative input stays negative, and the
    result is 0 only for the input 0. *)
Theorem activation_leaky (x : R) :
  ((0 <= x)%R -> CostModel.activation x = ((1 + 1e-5) * x)%R) /\
  ((x <= 0)%R -> CostModel.activation x = (1e-5 * x)%R) /\
  ((x < 0)%R -> (CostModel.activation x < 0)%R) /\
  (CostModel.activation x = 0%R <-> x = 0%R).
Proof.
  unfold CostModel.activation.
  destruct (Rle_dec 0 x) as [Hx|Hx].
  - rewrite Rmax_right by exact Hx. repeat split; intros; lra.
  - rewrite Rmax_left by lra. repeat split; intros; lra.
Qed.

(** For [num_stages >= 1] the padding of the stage window is split between
    the two sides: [first_valid] positions below the valid window, and above
    it as many or one more (the odd position goes to the high side); there is
    none at all from 22 stages on. *)
Theorem padding_split (I : Inputs) :
  (1 <= num_stages I <= Int32.max_signed)%Z ->
  let low := CostModel.first_valid I in
  let high :=
    (CostModel.padded_stages I - CostModel.first_valid I - num_stages I)%Z in
  (0 <= low <= high)%Z /\ (high <= low + 1)%Z /\
  (low + num_stages I + high = CostModel.padded_stages I)%Z /\
  ((22 <= num_stages I)%Z -> low = 0%Z /\ high = 0%Z).
Proof.
  intros Hn low high. subst low high.
  rewrite (first_valid_eq I Hn).
  unfold CostModel.padded_stages, Int32.max.
  pose proof (Z.div_mod (Z.max (num_stages I) 22 - num_stages I) 2
                ltac:(lia)) as Hd.
  pose proof (Z.mod_pos_bound (Z.max (num_stages I) 22 - num_stages I) 2
                ltac:(lia)) as Hm.
  repeat split; lia.
Qed.

Lemma padding_split_witness :
  (0 <= CostModel.first_valid (example_inputs 9 1)
   <= CostModel.padded_stages (example_inputs 9 1)
      - CostModel.first_valid (example_inputs 9 1)
      - num_stages (example_inputs 9 1))%Z.
Proof.
  assert (Hn : (1 <= num_stages (example_inputs 9 1)
                <= Int32.max_signed)%Z)
    by (unfold Int32.max_signed; simpl; lia).
  exact (proj1 (padding_split (example_inputs 9 1) Hn)).
Defined.

(** Inside the valid window, a channel whose supplied std is at least
    [1e-8] is divided by that std itself, on both normalization paths. *)
Theorem normalizer_ordinary_std (fast_log : R -> R) (I : Inputs)
    (n c j s : Z) :
  (CostModel.first_valid I <= s
   < CostModel.first_valid I + num_stages I)%Z ->
  ((1e-8 <= pipeline_std I c j)%R ->
   CostModel.normalized_pipeline_features I c j s
   = ((pipeline_features I c j (s - CostModel.first_valid I)%Z
       - pipeline_mean I c j)
      / pipeline_std I c j)%R) /\
  ((1e-8 <= schedule_std I c)%R ->
   CostModel.normalized_schedule_features fast_log I n c s
   = ((fast_log
         (schedule_features I n c (s - CostModel.first_valid I)%Z + 1)
       - schedule_mean I c)
      / schedule_std I c)%R).
Proof.
  intros Hs.
  rewrite normalized_pipeline_features_eq, normalized_schedule_features_eq.
  rewrite in_window_true by exact Hs.
  split; intros Hstd; now rewrite Rmax_right by exact Hstd.
Qed.

Lemma normalizer_ordinary_std_witness :
  CostModel.normalized_pipeline_features
    (example_inputs_with (fun _ _ _ => 1%R) 2 10 1) 0 0 6
  = ((1 - 0) / 2)%R.
Proof.
  assert (Hs : (CostModel.first_valid
                  (example_inputs_with (fun _ _ _ => 1%R) 2 10 1) <= 6
                < CostModel.first_valid
                    (example_inputs_with (fun _ _ _ => 1%R) 2 10 1)
                  + num_stages
                      (example_inputs_with (fun _ _ _ => 1%R) 2 10 1))%Z)
    by (vm_compute; split; [discriminate | reflexivity]).
  apply (normalizer_ordinary_std ln
           (example_inputs_with (fun _ _ _ => 1%R) 2 10 1) 0 0 0 6 Hs).
  simpl. lra.
Defined.

(** ** Further properties of the ADAM update *)

Section AdamFacts.
Local Open Scope R_scope.

Lemma pow_fraction (x : R) (t : Z) :
  0 < x < 1 -> (0 <= t < Int32.max_signed)%Z ->
  0 < Halide.pow x (Int32.add t 1) < 1.
Proof.
  intros Hx Ht. rewrite pow_next_timestep by exact Ht.
  pose proof (pow_lt x (Z.to_nat (t + 1)) ltac:(lra)).
  pose proof (pow_lt_1_compat x (Z.to_nat (t + 1)) ltac:(lra) ltac:(lia)).
  lra.
Qed.

Lemma correction_exceeds_one (p : R) : 0 < p < 1 -> 1 < 1 / (1 - p).
Proof.
  intros Hp.
  assert (Hi : 0 < / (1 - p)) by (apply Rinv_0_lt_compat; lra).
  assert (He : (1 - p) * / (1 - p) = 1) by (apply Rinv_r; lra).
  unfold Rdiv. nra.
Qed.

(** The update of an entry whose incoming moments are zero, at timestep 0. *)
Lemma backprop_first_step (name : string) (self : ModelWeight)
    (d : Derivative) (lr : R) (args : list Z) :
  grad_in self args 1%Z = 0 ->
  grad_in self args 2%Z = 0 ->
  ModelWeightTraining.backprop name self d lr 0 args 0%Z
  = self args - lr * d name args / (Rabs (d name args) + 1e-8).
Proof.
  intros Hm Hv.
  destruct (backprop_planes name self d lr 0 args) as (H0 & _).
  rewrite H0, Hm, Hv, pow_2.
  unfold ModelWeightTraining.smoothed_deriv_correction,
    ModelWeightTraining.smoothed_second_moment_correction.
  change (Int32.add 0 1) with 1%Z. unfold Halide.pow. simpl powerRZ.
  set (g := d name args).
  replace ((0.999 * 0 + 0.001 * (g * g)) * (1 / (1 - 0.999 * 1)))
    with (Rsqr g) by (unfold Rsqr; lra).
  rewrite sqrt_Rsqr_abs.
  replace (lr * (0.9 * 0 + 0.1 * g) * (1 / (1 - 0.9 * 1))) with (lr * g)
    by lra.
  reflexivity.
Qed.

Lemma bias_corrections_positive (t : Z) :
  (0 <= t < Int32.max_signed)%Z ->
  0 < ModelWeightTraining.smoothed_deriv_correction t /\
  0 < ModelWeightTraining.smoothed_second_moment_correction t.
Proof.
  intros Ht.
  pose proof (pow_fraction 0.9 t ltac:(lra) Ht) as H1.
  pose proof (pow_fraction 0.999 t ltac:(lra) Ht) as H2.
  pose proof (correction_exceeds_one _ H1).
  pose proof (correction_exceeds_one _ H2).
  unfold ModelWeightTraining.smoothed_deriv_correction,
    ModelWeightTraining.smoothed_second_moment_correction.
  split; lra.
Qed.

End AdamFacts.

(** For every timestep [0 <= t < 2^31 - 1] the denominators
    [1 - 0.9^(t+1)] and [1 - 0.999^(t+1)] of the two bias corrections are
    positive and at most 1: neither correction divides by zero, and each is
    at least 1. *)
Theorem bias_corrections_at_least_one (t : Z) :
  (0 <= t < Int32.max_signed)%Z ->
  (0 < 1 - Halide.pow 0.9 (Int32.add t 1) <= 1)%R /\
  (0 < 1 - Halide.pow 0.999 (Int32.add t 1) <= 1)%R /\
  (1 <= ModelWeightTraining.smoothed_deriv_correction t)%R /\
  (1 <= ModelWeightTraining.smoothed_second_moment_correction t)%R.
Proof.
  intros Ht.
  pose proof (pow_fraction 0.9 t ltac:(lra) Ht) as H1.
  pose proof (pow_fraction 0.999 t ltac:(lra) Ht) as H2.
  pose proof (correction_exceeds_one _ H1) as C1.
  pose proof (correction_exceeds_one _ H2) as C2.
  unfold ModelWeightTraining.smoothed_deriv_correction,
    ModelWeightTraining.smoothed_second_moment_correction.
  repeat split; lra.
Qed.

Lemma bias_corrections_at_least_one_witness :
  (1 <= ModelWeightTraining.smoothed_deriv_correction 5)%R.
Proof.
  assert (Ht : (0 <= 5 < Int32.max_signed)%Z)
    by (unfold Int32.max_signed; simpl; lia).
  exact (proj1 (proj2 (proj2 (bias_corrections_at_least_one 5 Ht)))).
Defined.

(** The first ADAM step: at timestep 0, for an entry whose incoming moments
    are zero and whose loss gradient is [g], the call leaves [m = 0.1 g],
    [v = 0.001 g^2] and [theta_new = theta - lr g / (|g| + 1e-8)]. *)
Theorem adam_first_step (name : string) (self : ModelWeight) (d : Derivative)
    (lr : R) (args : list Z) :
  grad_in self args 1%Z = 0%R ->
  grad_in self args 2%Z = 0%R ->
  let g := d name args in
  let grad := ModelWeightTraining.backprop name self d lr 0 in
  grad args 1%Z = (0.1 * g)%R /\
  grad args 2%Z = (0.001 * g ^ 2)%R /\
  grad args 0%Z = (self args - lr * g / (Rabs g + 1e-8))%R.
Proof.
  intros Hm Hv g grad.
  destruct (backprop_planes name self d lr 0 args) as (_ & H1 & H2 & _).
  split; [|split].
  - subst grad. rewrite H1, Hm. fold g. lra.
  - subst grad. rewrite H2, Hv, pow_2. fold g. lra.
  - apply backprop_first_step; assumption.
Qed.

Lemma adam_first_step_witness :
  ModelWeightTraining.backprop "bias1" (example_weight 1 48 0 0)
    example_derivative 0.01 0 [0%Z] 0%Z
  = (1 - 0.01 * 1 / (Rabs 1 + 1e-8))%R.
Proof.
  apply (adam_first_step "bias1" (example_weight 1 48 0 0)
           example_derivative 0.01 [0%Z]); reflexivity.
Defined.

(** The first ADAM step moves an entry by at most the learning rate,
    whatever the size of the gradient. *)
Theorem adam_first_step_bounded (name : string) (self : ModelWeight)
    (d : Derivative) (lr : R) (args : list Z) :
  grad_in self args 1%Z = 0%R ->
  grad_in self args 2%Z = 0%R ->
  (Rabs (ModelWeightTraining.backprop name self d lr 0 args 0%Z - self args)
   <= Rabs lr)%R.
Proof.
  intros Hm Hv. rewrite backprop_first_step by assumption.
  set (g := d name args).
  pose proof (Rabs_pos g) as Hg.
  replace (self args - lr * g / (Rabs g + 1e-8) - self args)%R
    with (- lr * (g / (Rabs g + 1e-8)))%R by (unfold Rdiv; ring).
  rewrite Rabs_mult, Rabs_Ropp.
  assert (Hq : (Rabs (g / (Rabs g + 1e-8)) <= 1)%R).
  { remember (Rabs g + 1e-8)%R as q eqn:Eq.
    unfold Rdiv. rewrite Rabs_mult, Rabs_inv.
    rewrite (Rabs_right q) by lra.
    apply (Rmult_le_reg_r q); [lra|].
    rewrite Rmult_assoc, Rinv_l by lra. lra. }
  pose proof (Rabs_pos lr).
  replace (Rabs lr) with (Rabs lr * 1)%R at 2 by ring.
  apply Rmult_le_compat_l; assumption.
Qed.

Lemma adam_first_step_bounded_witness :
  (Rabs (ModelWeightTraining.backprop "bias1" (example_weight 1 48 0 0)
           example_derivative 0.01 0 [0%Z] 0%Z
         - example_weight 1 48 0 0 [0%Z])
   <= Rabs 0.01)%R.
Proof.
  apply (adam_first_step_bounded "bias1" (example_weight 1 48 0 0)
           example_derivative 0.01 [0%Z]); reflexivity.
Defined.

(** An entry with a zero loss gradient and zero incoming moments is left
    unchanged, with zero moments, at every timestep [0 <= t < 2^31 - 1] and
    every learning rate. *)
Theorem adam_fixed_point (name : string) (self : ModelWeight) (d : Derivative)
    (lr : R) (t : Z) (args : list Z) :
  (0 <= t < Int32.max_signed)%Z ->
  d name args = 0%R ->
  grad_in self args 1%Z = 0%R ->
  grad_in self args 2%Z = 0%R ->
  let grad := ModelWeightTraining.backprop name self d lr t in
  grad args 0%Z = self args /\
  grad args 1%Z = 0%R /\
  grad args 2%Z = 0%R /\
  grad args 3%Z = 0%R.
Proof.
  intros Ht Hg Hm Hv grad.
  destruct (backprop_planes name self d lr t args) as (H0 & H1 & H2 & H3).
  subst grad. rewrite H0, H1, H2, H3, Hg, Hm, Hv, pow_2.
  replace ((0.999 * 0 + 0.001 * (0 * 0))
           * ModelWeightTraining.smoothed_second_moment_correction t)%R
    with 0%R by lra.
  rewrite sqrt_0.
  replace (0.9 * 0 + 0.1 * 0)%R with 0%R by lra.
  replace (0.999 * 0 + 0.001 * (0 * 0))%R with 0%R by lra.
  repeat split; try reflexivity. unfold Rdiv. ring.
Qed.

Lemma adam_fixed_point_witness :
  ModelWeightTraining.backprop "bias1" (example_weight 1 48 0 0)
    (fun _ _ => 0%R) 0.01 7 [0%Z] 0%Z
  = example_weight 1 48 0 0 [0%Z].
Proof.
  apply (adam_fixed_point "bias1" (example_weight 1 48 0 0)
           (fun _ _ => 0%R) 0.01 7 [0%Z]); try reflexivity.
  unfold Int32.max_signed. simpl. lia.
Defined.

(** The second moment stays non-negative: from a non-negative incoming
    second moment and a timestep [0 <= t < 2^31 - 1] the new second moment is
    non-negative, the square root is taken of a non-negative number, and the
    step is divided by a number that is at least [1e-8]. *)
Theorem adam_second_moment_invariant (name : string) (self : ModelWeight)
    (d : Derivative) (lr : R) (t : Z) (args : list Z) :
  (0 <= grad_in self args 2%Z)%R ->
  (0 <= t < Int32.max_signed)%Z ->
  let v := ModelWeightTraining.backprop name self d lr t args 2%Z in
  let v_hat :=
    (v * ModelWeightTraining.smoothed_second_moment_correction t)%R in
  (0 <= v)%R /\ (0 <= v_hat)%R /\ (1e-8 <= sqrt v_hat + 1e-8)%R.
Proof.
  intros Hv Ht v v_hat.
  destruct (backprop_planes name self d lr t args) as (_ & _ & H2 & _).
  destruct (bias_corrections_positive t Ht) as [_ Hc].
  assert (H0 : (0 <= v)%R).
  { subst v. rewrite H2, pow_2.
    pose proof (Rle_0_sqr (d name args)) as Hs. unfold Rsqr in Hs. lra. }
  assert (H1 : (0 <= v_hat)%R) by (apply Rmult_le_pos; lra).
  pose proof (sqrt_pos v_hat). repeat split; lra.
Qed.

Lemma adam_second_moment_invariant_witness :
  (0 <= ModelWeightTraining.backprop "bias1" (example_weight 1 48 0 0)
          example_derivative 0.01 3 [0%Z] 2%Z)%R.
Proof.
  assert (Hv : (0 <= grad_in (example_weight 1 48 0 0) [0%Z] 2%Z)%R)
    by (simpl; lra).
  assert (Ht : (0 <= 3 < Int32.max_signed)%Z)
    by (unfold Int32.max_signed; simpl; lia).
  exact (proj1 (adam_second_moment_invariant "bias1"
                  (example_weight 1 48 0 0) example_derivative 0.01 3
                  [0%Z] Hv Ht)).
Defined.

(** The update of an entry reads, of the incoming output buffer, only the
    two moment planes of that entry: two weights that agree on the entry's
    value and on its planes 1 and 2 get the same four result planes, whatever
    planes 0 and 3 held before the call. *)
Theorem backprop_reads_only_moments (name : string)
    (self self' : ModelWeight) (d : Derivative) (lr : R) (t : Z)
    (args : list Z) (k : Z) :
  self args = self' args ->
  grad_in self args 1%Z = grad_in self' args 1%Z ->
  grad_in self args 2%Z = grad_in self' args 2%Z ->
  (0 <= k <= 3)%Z ->
  ModelWeightTraining.backprop name self d lr t args k
  = ModelWeightTraining.backprop name self' d lr t args k.
Proof.
  intros Hval Hm Hv Hk.
  destruct (backprop_planes name self d lr t args) as (A0 & A1 & A2 & A3).
  destruct (backprop_planes name self' d lr t args) as (B0 & B1 & B2 & B3).
  assert (Hcase : k = 0%Z \/ k = 1%Z \/ k = 2%Z \/ k = 3%Z) by lia.
  destruct Hcase as [-> | [-> | [-> | ->]]].
  - rewrite A0, B0, Hval, Hm, Hv. reflexivity.
  - rewrite A1, B1, Hm. reflexivity.
  - rewrite A2, B2, Hv. reflexivity.
  - rewrite A3, B3. reflexivity.
Qed.

Lemma backprop_reads_only_moments_witness :
  ModelWeightTraining.backprop "bias1"
    {| value := fun _ => 1%R;
       extent := fun _ => 0%Z;
       grad_in := fun _ k => if (k =? 0)%Z then 5%R else 0%R |}
    example_derivative 0.01 0 [0%Z] 0%Z
  = ModelWeightTraining.backprop "bias1" (example_weight 1 48 0 0)
      example_derivative 0.01 0 [0%Z] 0%Z.
Proof.
  apply backprop_reads_only_moments; try reflexivity. lia.
Defined.

(** ** The layers as sums *)

Section LayerSums.
Local Open Scope R_scope.
Import CostModel.

Lemma head1_conv_eq (I : Inputs) (W : Weights) (c w : Z) :
  head1_conv I W c w
  = head1_bias W [c]
    + list_Rsum r_head1
        (fun r => head1_filter W [c; fst r; snd r]
                  * normalized_pipeline_features I (fst r) (snd r) w).
Proof.
  unfold head1_conv.
  apply (update_accumulate (fun f : Z -> Z -> R => f c w)). reflexivity.
Qed.

Lemma head2_conv_eq (fast_log : R -> R) (I : Inputs) (W : Weights)
    (n c w : Z) :
  head2_conv fast_log I W n c w
  = head2_bias W [c]
    + list_Rsum r_head2
        (fun r => head2_filter W [c; r]
                  * normalized_schedule_features fast_log I n r w).
Proof.
  unfold head2_conv.
  apply (update_accumulate (fun f : Z -> Z -> Z -> R => f n c w)).
  reflexivity.
Qed.

Lemma conv1_stage1_eq (I : Inputs) (W : Weights) (c w : Z) :
  conv1_stage1 I W c w
  = bias1 W [c]
    + list_Rsum r1_stage1
        (fun r => filter1 W [c; fst r; snd r]
                  * head1_relu_padded I W (fst r) (w + snd r - 1)%Z).
Proof.
  unfold conv1_stage1.
  apply (update_accumulate (fun f : Z -> Z -> R => f c w)). reflexivity.
Qed.

Lemma conv1_stage2_eq (fast_log : R -> R) (I : Inputs) (W : Weights)
    (n c w : Z) :
  conv1_stage2 fast_log I W n c w
  = conv1_stage1 I W c w
    + list_Rsum r1_stage2
        (fun r =>
           filter1 W [c; (extent (head1_filter W) 0 + fst r)%Z; snd r]
           * head2_relu_padded fast_log I W n (fst r) (w + snd r - 1)%Z).
Proof.
  unfold conv1_stage2.
  apply (update_accumulate (fun f : Z -> Z -> Z -> R => f n c w)).
  reflexivity.
Qed.

Lemma conv2_eq (fast_log : R -> R) (I : Inputs) (W : Weights) (n c w : Z) :
  conv2 fast_log I W n c w
  = bias2 W [c]
    + list_Rsum r2
        (fun r => filter2 W [c; fst r; snd r]
                  * relu1_padded fast_log I W n (fst r) (w + snd r - 1)%Z).
Proof.
  unfold conv2.
  apply (update_accumulate (fun f : Z -> Z -> Z -> R => f n c w)).
  reflexivity.
Qed.

Lemma conv4_eq (fast_log : R -> R) (I : Inputs) (W : Weights) (n c w : Z) :
  conv4 fast_log I W n c w
  = bias4 W [c]
    + list_Rsum r4
        (fun r => filter4 W [c; fst r; snd r]
                  * pool3_padded fast_log I W n (fst r) (w + snd r - 1)%Z).
Proof.
  unfold conv4.
  apply (update_accumulate (fun f : Z -> Z -> Z -> R => f n c w)).
  reflexivity.
Qed.

Lemma conv5_eq (fast_log : R -> R) (I : Inputs) (W : Weights) (n c w : Z) :
  conv5 fast_log I W n c w
  = bias5 W [c]
    + list_Rsum r5
        (fun r => filter5 W [c; fst r; snd r]
                  * pool4_padded fast_log I W n (fst r) (w + snd r - 1)%Z).
Proof.
  unfold conv5.
  apply (update_accumulate (fun f : Z -> Z -> Z -> R => f n c w)).
  reflexivity.
Qed.

Lemma conv6_eq (fast_log : R -> R) (I : Inputs) (W : Weights) (n w : Z) :
  conv6 fast_log I W n w
  = bias6 W []
    + list_Rsum r6
        (fun r => filter6 W [r] * relu5_padded fast_log I W n r w).
Proof.
  unfold conv6.
  apply (update_accumulate (fun f : Z -> Z -> R => f n w)). reflexivity.
Qed.

Lemma prediction_eq (fast_log : R -> R) (I : Inputs) (W : Weights) (n : Z) :
  prediction fast_log I W n
  = 0 + list_Rsum (r_reduce I) (fun r => relu6 fast_log I W n r).
Proof.
  unfold prediction.
  apply (update_accumulate (fun f : Z -> R => f n)). reflexivity.
Qed.

Lemma list_Rsum_ext {P : Type} (l : list P) (g h : P -> R) :
  (forall r, In r l -> g r = h r) -> list_Rsum l g = list_Rsum l h.
Proof.
  induction l as [|r l IH]; simpl; intros E; [reflexivity|].
  rewrite (E r) by now left. rewrite IH; [reflexivity|].
  intros r' Hr'. apply E. now right.
Qed.

End LayerSums.

(** The pipeline head before its activation: [bias[c]] plus the sum over
    [x < 56], [y < 7] of [filter[c,x,y] * normPipeline[x,y,w]], the same for
    every batch element. *)
Theorem head1_conv_sum (I : Inputs) (W : Weights) (c w : Z) :
  CostModel.head1_conv I W c w
  = (head1_bias W [c]
     + Sigma 56 (fun x => Sigma 7 (fun y =>
         head1_filter W [c; x; y]
         * CostModel.normalized_pipeline_features I x y w)))%R.
Proof.
  rewrite head1_conv_eq. unfold CostModel.r_head1.
  rewrite list_Rsum_rdom2. simpl fst. simpl snd.
  now rewrite (Sigma_exchange 56 7).
Qed.

(** The schedule head before its activation: [bias[c]] plus the sum over
    [x < 26] of [filter[c,x] * normSchedule[n,x,w]], for each batch element
    [n] on its own. *)
Theorem head2_conv_sum (fast_log : R -> R) (I : Inputs) (W : Weights)
    (n c w : Z) :
  CostModel.head2_conv fast_log I W n c w
  = (head2_bias W [c]
     + Sigma 26 (fun x =>
         head2_filter W [c; x]
         * CostModel.normalized_schedule_features fast_log I n x w))%R.
Proof.
  rewrite head2_conv_eq. unfold CostModel.r_head2.
  now rewrite list_Rsum_rdom.
Qed.

(** Trunk layers 2 to 5 before their activation: [bias[c]] plus the sum over
    the input channels [x] (48, 48, 96 and 120 of them) and the three taps
    [k] of [filter[c,x,k] * in[n,x,w+k-1]], the input being the padded output
    of the layer or pooling before. *)
Theorem conv2_to_conv5_sum (fast_log : R -> R) (I : Inputs) (W : Weights)
    (n c w : Z) :
  CostModel.conv2 fast_log I W n c w
  = (bias2 W [c]
     + Sigma 48 (fun x => Sigma 3 (fun k =>
         filter2 W [c; x; k]
         * CostModel.relu1_padded fast_log I W n x (w + k - 1)%Z)))%R /\
  CostModel.conv3 fast_log I W n c w
  = (bias3 W [c]
     + Sigma 48 (fun x => Sigma 3 (fun k =>
         filter3 W [c; x; k]
         * CostModel.relu2_padded fast_log I W n x (w + k - 1)%Z)))%R /\
  CostModel.conv4 fast_log I W n c w
  = (bias4 W [c]
     + Sigma 96 (fun x => Sigma 3 (fun k =>
         filter4 W [c; x; k]
         * CostModel.pool3_padded fast_log I W n x (w + k - 1)%Z)))%R /\
  CostModel.conv5 fast_log I W n c w
  = (bias5 W [c]
     + Sigma 120 (fun x => Sigma 3 (fun k =>
         filter5 W [c; x; k]
         * CostModel.pool4_padded fast_log I W n x (w + k - 1)%Z)))%R.
Proof.
  rewrite conv2_eq, conv3_eq, conv4_eq, conv5_eq.
  unfold CostModel.r2, CostModel.r3, CostModel.r4, CostModel.r5.
  rewrite !list_Rsum_rdom2. simpl fst. simpl snd.
  rewrite (Sigma_exchange 48 3), (Sigma_exchange 48 3),
    (Sigma_exchange 96 3), (Sigma_exchange 120 3).
  repeat split; reflexivity.
Qed.

(** Trunk layer 6 before its activation collapses the 168 channels at the
    same stage position: [bias6 + sum over c < 168 of
    filter6[c] * in[n,c,w]]. *)
Theorem conv6_sum (fast_log : R -> R) (I : Inputs) (W : Weights) (n w : Z) :
  CostModel.conv6 fast_log I W n w
  = (bias6 W []
     + Sigma 168 (fun c =>
         filter6 W [c] * CostModel.relu5_padded fast_log I W n c w))%R.
Proof.
  rewrite conv6_eq. unfold CostModel.r6. now rewrite list_Rsum_rdom.
Qed.

(** ** Padding positions, pooling and the final sum *)

(** Outside the valid window the normalized features are zero, so both heads
    reduce to their bias before the activation.  A position of the padded
    window [0, padded_stages) that is outside the valid window therefore
    carries [activation(bias[c])] after the heads' zero padding, not zero. *)
Theorem heads_outside_valid_window (fast_log : R -> R) (I : Inputs)
    (W : Weights) (n c w : Z) :
  ~ (CostModel.first_valid I <= w
     < CostModel.first_valid I + num_stages I)%Z ->
  CostModel.head1_conv I W c w = head1_bias W [c] /\
  CostModel.head2_conv fast_log I W n c w = head2_bias W [c] /\
  ((0 <= w < CostModel.padded_stages I)%Z ->
   CostModel.head1_relu_padded I W c w
   = CostModel.activation (head1_bias W [c]) /\
   CostModel.head2_relu_padded fast_log I W n c w
   = CostModel.activation (head2_bias W [c])).
Proof.
  intros Hw.
  assert (H1 : CostModel.head1_conv I W c w = head1_bias W [c]).
  { rewrite head1_conv_eq, list_Rsum_zero; [ring|].
    intros r _. rewrite normalized_pipeline_features_eq.
    rewrite in_window_false by exact Hw. ring. }
  assert (H2 : CostModel.head2_conv fast_log I W n c w = head2_bias W [c]).
  { rewrite head2_conv_eq, list_Rsum_zero; [ring|].
    intros r _. rewrite normalized_schedule_features_eq.
    rewrite in_window_false by exact Hw. ring. }
  split; [exact H1|]. split; [exact H2|].
  intros HP.
  unfold CostModel.head1_relu_padded, CostModel.head2_relu_padded.
  rewrite pad_stages3_eq.
  change (CostModel.pad_stages (CostModel.head1_relu I W)
            (CostModel.padded_stages I) c w)
    with (if ((0 <=? w) && (w <? 0 + CostModel.padded_stages I))%Z
          then CostModel.head1_relu I W c w else 0%R).
  rewrite in_window_true by lia.
  unfold CostModel.head1_relu, CostModel.head2_relu.
  now rewrite H1, H2.
Qed.

Lemma heads_outside_valid_window_witness :
  CostModel.head1_relu_padded (example_inputs 10 1) (example_weights 1) 0 0
  = CostModel.activation 1.
Proof.
  assert (Hw : ~ (CostModel.first_valid (example_inputs 10 1) <= 0
                  < CostModel.first_valid (example_inputs 10 1)
                    + num_stages (example_inputs 10 1))%Z)
    by (vm_compute; intros [H _]; apply H; reflexivity).
  destruct (heads_outside_valid_window ln (example_inputs 10 1)
              (example_weights 1) 0 0 0 Hw) as (_ & _ & Hp).
  apply Hp. vm_compute. split; [discriminate | reflexivity].
Defined.

Section PoolingFacts.
Local Open Scope R_scope.
Import CostModel.

Lemma pool4_support (fast_log : R -> R) (I : Inputs) (W : Weights)
    (n c w : Z) :
  ~ (0 <= w < pool3_stages I / 2 + 1)%Z ->
  pool4 fast_log I W n c w = 0.
Proof.
  intros Hw. unfold pool4, relu4_padded.
  pose proof (Z.div_mod (pool3_stages I) 2 ltac:(lia)) as Hd.
  pose proof (Z.mod_pos_bound (pool3_stages I) 2 ltac:(lia)) as Hm.
  rewrite !pad_stages3_eq, !in_window_false by lia.
  lra.
Qed.

Lemma Sigma_scale (n : nat) (a : R) (f : Z -> R) :
  Sigma n (fun i => a * f i) = a * Sigma n f.
Proof.
  induction n as [|k IH]; simpl; [ring|]. rewrite IH. ring.
Qed.

Lemma Sigma_const (n : nat) (a : R) : Sigma n (fun _ => a) = INR n * a.
Proof.
  induction n as [|k IH]; [simpl; ring|].
  rewrite S_INR. simpl. rewrite IH. ring.
Qed.

Lemma Sigma_trunc (f : Z -> R) (m n : nat) :
  (m <= n)%nat ->
  (forall i, (Z.of_nat m <= i)%Z -> f i = 0) ->
  Sigma n f = Sigma m f.
Proof.
  intros Hmn Hz. induction n as [|k IH].
  - replace m with O by lia. reflexivity.
  - destruct (Nat.eq_dec m (S k)) as [->|Hne]; [reflexivity|].
    simpl. rewrite IH by lia. rewrite Hz by lia. ring.
Qed.

(** Pairing the positions [2w-1] and [2w] for [w <= k] runs once through
    the positions [-1 .. 2k]. *)
Lemma Sigma_pairs (f : Z -> R) (k : nat) :
  Sigma (S k) (fun w => f (w * 2 - 1)%Z + f (w * 2)%Z)
  = f (-1)%Z + Sigma (2 * k + 1) f.
Proof.
  induction k as [|k IH].
  - simpl. ring.
  - change (Sigma (S (S k)) (fun w => f (w * 2 - 1)%Z + f (w * 2)%Z))
      with (Sigma (S k) (fun w => f (w * 2 - 1)%Z + f (w * 2)%Z)
            + (f (Z.of_nat (S k) * 2 - 1)%Z + f (Z.of_nat (S k) * 2)%Z)).
    rewrite IH.
    replace (2 * S k + 1)%nat with (S (S (2 * k + 1))) by lia.
    change (Sigma (S (S (2 * k + 1))) f)
      with (Sigma (2 * k + 1) f + f (Z.of_nat (2 * k + 1))
            + f (Z.of_nat (S (2 * k + 1)))).
    replace (Z.of_nat (S k) * 2 - 1)%Z with (Z.of_nat (2 * k + 1)) by lia.
    replace (Z.of_nat (S k) * 2)%Z with (Z.of_nat (S (2 * k + 1))) by lia.
    ring.
Qed.

(** Average pooling of a signal that is zero outside [0, E), summed over the
    [floor(E/2) + 1] positions of the new window, gives half the total. *)
Lemma avg_pool_total (f : Z -> R) (E : Z) :
  (0 <= E)%Z ->
  (forall i, ~ (0 <= i < E)%Z -> f i = 0) ->
  Sigma (Z.to_nat (E / 2 + 1))
    (fun w => 0.5 * (f (w * 2 - 1)%Z + f (w * 2)%Z))
  = 0.5 * Sigma (Z.to_nat E) f.
Proof.
  intros HE Hz.
  pose proof (Z.div_mod E 2 ltac:(lia)) as Hd.
  pose proof (Z.mod_pos_bound E 2 ltac:(lia)) as Hm.
  assert (Hq : (0 <= E / 2)%Z) by (apply Z.div_pos; lia).
  rewrite Sigma_scale. f_equal.
  replace (Z.to_nat (E / 2 + 1)) with (S (Z.to_nat (E / 2))) by lia.
  rewrite Sigma_pairs, (Hz (-1)%Z) by lia.
  rewrite (Sigma_trunc f (Z.to_nat E) (2 * Z.to_nat (E / 2) + 1)).
  - ring.
  - lia.
  - intros i Hi. apply Hz. lia.
Qed.

End PoolingFacts.

(** The zero re-padding after each pooling discards nothing: the pooled
    tensor is already zero outside the new window, so the padded and the
    unpadded pooled tensors agree at every position. *)
Theorem repadding_after_pooling_is_identity (fast_log : R -> R) (I : Inputs)
    (W : Weights) (n c w : Z) :
  (num_stages I <= Int32.max_signed - 6)%Z ->
  CostModel.pool3_padded fast_log I W n c w
  = CostModel.pool3 fast_log I W n c w /\
  CostModel.pool4_padded fast_log I W n c w
  = CostModel.pool4 fast_log I W n c w.
Proof.
  intros Hn.
  assert (H3 : CostModel.pool3_stages I = (CostModel.padded_stages I / 2 + 1)%Z)
    by (apply pool3_stages_eq; lia).
  assert (H4 : CostModel.pool4_stages I
               = (CostModel.pool3_stages I / 2 + 1)%Z).
  { rewrite pool4_stages_eq, H3 by exact Hn. apply pool_stages_halving. }
  unfold CostModel.pool3_padded, CostModel.pool4_padded.
  rewrite !pad_stages3_eq. split.
  - destruct (Z_lt_dec w 0) as [Hlo|Hlo];
      [|destruct (Z_lt_dec w (CostModel.pool3_stages I)) as [Hhi|Hhi]].
    + rewrite in_window_false by lia. symmetry.
      apply pool3_support. lia.
    + now rewrite in_window_true by lia.
    + rewrite in_window_false by lia. symmetry.
      apply pool3_support. lia.
  - destruct (Z_lt_dec w 0) as [Hlo|Hlo];
      [|destruct (Z_lt_dec w (CostModel.pool4_stages I)) as [Hhi|Hhi]].
    + rewrite in_window_false by lia. symmetry.
      apply pool4_support. lia.
    + now rewrite in_window_true by lia.
    + rewrite in_window_false by lia. symmetry.
      apply pool4_support. lia.
Qed.

Lemma repadding_after_pooling_is_identity_witness :
  CostModel.pool3_padded ln (example_inputs 22 1) (example_weights 1) 0 0 40
  = CostModel.pool3 ln (example_inputs 22 1) (example_weights 1) 0 0 40.
Proof.
  assert (Hn : (num_stages (example_inputs 22 1)
                <= Int32.max_signed - 6)%Z)
    by (unfold Int32.max_signed; simpl; lia).
  exact (proj1 (repadding_after_pooling_is_identity ln (example_inputs 22 1)
                  (example_weights 1) 0 0 40 Hn)).
Defined.

(** Each average pooling halves the total over the stage axis: the sum of
    the pooled tensor over its new window is half the sum of its input over
    the old window, for every batch element and channel. *)
Theorem pooling_halves_total (fast_log : R -> R) (I : Inputs) (W : Weights)
    (n c : Z) :
  (num_stages I <= Int32.max_signed - 6)%Z ->
  let P := CostModel.padded_stages I in
  let E1 := (P / 2 + 1)%Z in
  let E2 := ((P + 6) / 4)%Z in
  Sigma (Z.to_nat E1) (fun w => CostModel.pool3 fast_log I W n c w)
  = (0.5 * Sigma (Z.to_nat P)
             (fun w => CostModel.relu3_padded fast_log I W n c w))%R /\
  Sigma (Z.to_nat E2) (fun w => CostModel.pool4 fast_log I W n c w)
  = (0.5 * Sigma (Z.to_nat E1)
             (fun w => CostModel.relu4_padded fast_log I W n c w))%R.
Proof.
  intros Hn P E1 E2.
  assert (HP : (22 <= P)%Z) by (unfold P, CostModel.padded_stages, Int32.max; lia).
  assert (H3 : CostModel.pool3_stages I = E1)
    by (apply pool3_stages_eq; lia).
  assert (HE : E2 = (E1 / 2 + 1)%Z) by apply pool_stages_halving.
  assert (HE1 : (0 <= E1)%Z).
  { unfold E1. pose proof (Z.div_pos P 2 ltac:(lia) ltac:(lia)). lia. }
  split.
  - unfold CostModel.pool3.
    apply (avg_pool_total (CostModel.relu3_padded fast_log I W n c) P);
      [lia|].
    intros i Hi. unfold CostModel.relu3_padded.
    rewrite pad_stages3_eq. now rewrite in_window_false by (fold P; lia).
  - rewrite HE. unfold CostModel.pool4.
    apply (avg_pool_total (CostModel.relu4_padded fast_log I W n c) E1);
      [lia|].
    intros i Hi. unfold CostModel.relu4_padded.
    rewrite pad_stages3_eq, H3. now rewrite in_window_false by lia.
Qed.

Lemma pooling_halves_total_witness :
  Sigma 12
    (fun w =>
       CostModel.pool3 ln (example_inputs 22 1) (example_weights 1) 0 0 w)
  = (0.5 * Sigma 22
             (fun w =>
                CostModel.relu3_padded ln (example_inputs 22 1)
                  (example_weights 1) 0 0 w))%R.
Proof.
  assert (Hn : (num_stages (example_inputs 22 1)
                <= Int32.max_signed - 6)%Z)
    by (unfold Int32.max_signed; simpl; lia).
  exact (proj1 (pooling_halves_total ln (example_inputs 22 1)
                  (example_weights 1) 0 0 Hn)).
Defined.

(** Layer 6 is not padded before the final sum: when [filter6] is zero on
    its 168 channels, every one of the [(padded_stages + 6) / 4] summed
    positions contributes [activation(bias6)], so the prediction is that
    count times [activation(bias6)], whatever the inputs and the other
    weights are. *)
Theorem prediction_with_zero_filter6 (fast_log : R -> R) (I : Inputs)
    (W : Weights) (n : Z) :
  (num_stages I <= Int32.max_signed - 6)%Z ->
  (forall c, (0 <= c < 168)%Z -> filter6 W [c] = 0%R) ->
  CostModel.prediction fast_log I W n
  = (IZR ((CostModel.padded_stages I + 6) / 4)
     * CostModel.activation (bias6 W []))%R.
Proof.
  intros Hn Hf.
  assert (HL : (0 <= (CostModel.padded_stages I + 6) / 4)%Z).
  { apply Z.div_pos; [|lia].
    unfold CostModel.padded_stages, Int32.max. lia. }
  rewrite prediction_eq. unfold CostModel.r_reduce.
  rewrite list_Rsum_rdom, pool4_stages_eq by exact Hn.
  rewrite (Sigma_ext _ _ (fun _ => CostModel.activation (bias6 W []))).
  - rewrite Sigma_const, INR_IZR_INZ, Z2Nat.id by exact HL. ring.
  - intros w _. unfold CostModel.relu6. f_equal.
    rewrite conv6_eq, list_Rsum_zero; [ring|].
    intros r Hr. apply In_rdom in Hr.
    rewrite Hf by (unfold CostModel.conv5_channels in Hr; lia). ring.
Qed.

Lemma prediction_with_zero_filter6_witness :
  CostModel.prediction ln (example_inputs 22 1) (example_weights 1) 0
  = (IZR 7 * CostModel.activation 1)%R.
Proof.
  apply (prediction_with_zero_filter6 ln (example_inputs 22 1)
           (example_weights 1) 0).
  - unfold Int32.max_signed. simpl. lia.
  - intros c _. reflexivity.
Defined.

(** ** Batch independence *)

Section BatchIndependence.
Local Open Scope R_scope.
Import CostModel.

Variable fast_log : R -> R.
Variables I I' : Inputs.
Variable W : Weights.
Variables n n' : Z.
Hypothesis Hrow : same_row n n' I I'.

Lemma pad_stages2_eq (f : Z -> Z -> R) (stages c w : Z) :
  pad_stages f stages c w
  = if ((0 <=? w) && (w <? 0 + stages))%Z then f c w else 0.
Proof. reflexivity. Qed.

Lemma same_num_stages : num_stages I = num_stages I'.
Proof. exact (proj1 Hrow). Qed.

Lemma same_padded_stages : padded_stages I = padded_stages I'.
Proof. unfold padded_stages. now rewrite same_num_stages. Qed.

Lemma same_first_valid : first_valid I = first_valid I'.
Proof. unfold first_valid, padded_stages. now rewrite same_num_stages. Qed.

Lemma same_pool3_stages : pool3_stages I = pool3_stages I'.
Proof. unfold pool3_stages. now rewrite same_padded_stages. Qed.

Lemma same_pool4_stages : pool4_stages I = pool4_stages I'.
Proof. unfold pool4_stages. now rewrite same_padded_stages. Qed.

Lemma same_normalized_pipeline_features (c j s : Z) :
  normalized_pipeline_features I c j s
  = normalized_pipeline_features I' c j s.
Proof.
  destruct Hrow as (Hn & Hf & Hm & Hs & _).
  rewrite !normalized_pipeline_features_eq.
  now rewrite same_first_valid, Hn, Hf, Hm, Hs.
Qed.

Lemma same_normalized_schedule_features (c s : Z) :
  normalized_schedule_features fast_log I n c s
  = normalized_schedule_features fast_log I' n' c s.
Proof.
  destruct Hrow as (Hn & _ & _ & _ & Hm & Hs & Hf).
  rewrite !normalized_schedule_features_eq.
  now rewrite same_first_valid, Hn, Hf, Hm, Hs.
Qed.

Lemma same_head1_relu_padded (c w : Z) :
  head1_relu_padded I W c w = head1_relu_padded I' W c w.
Proof.
  unfold head1_relu_padded. rewrite !pad_stages2_eq, same_padded_stages.
  destruct ((0 <=? w) && (w <? 0 + padded_stages I'))%Z; [|reflexivity].
  unfold head1_relu. f_equal. rewrite !head1_conv_eq. f_equal.
  apply list_Rsum_ext. intros r _.
  now rewrite same_normalized_pipeline_features.
Qed.

Lemma same_head2_relu_padded (c w : Z) :
  head2_relu_padded fast_log I W n c w
  = head2_relu_padded fast_log I' W n' c w.
Proof.
  unfold head2_relu_padded. rewrite !pad_stages3_eq, same_padded_stages.
  destruct ((0 <=? w) && (w <? 0 + padded_stages I'))%Z; [|reflexivity].
  unfold head2_relu. f_equal. rewrite !head2_conv_eq. f_equal.
  apply list_Rsum_ext. intros r _.
  now rewrite same_normalized_schedule_features.
Qed.

Lemma same_relu1_padded (c w : Z) :
  relu1_padded fast_log I W n c w = relu1_padded fast_log I' W n' c w.
Proof.
  unfold relu1_padded. rewrite !pad_stages3_eq, same_padded_stages.
  destruct ((0 <=? w) && (w <? 0 + padded_stages I'))%Z; [|reflexivity].
  unfold relu1. f_equal. rewrite !conv1_stage2_eq, !conv1_stage1_eq.
  f_equal; [f_equal|]; apply list_Rsum_ext; intros r _.
  - now rewrite same_head1_relu_padded.
  - now rewrite same_head2_relu_padded.
Qed.

Lemma same_relu2_padded (c w : Z) :
  relu2_padded fast_log I W n c w = relu2_padded fast_log I' W n' c w.
Proof.
  unfold relu2_padded. rewrite !pad_stages3_eq, same_padded_stages.
  destruct ((0 <=? w) && (w <? 0 + padded_stages I'))%Z; [|reflexivity].
  unfold relu2. f_equal. rewrite !conv2_eq. f_equal.
  apply list_Rsum_ext. intros r _. now rewrite same_relu1_padded.
Qed.

Lemma same_relu3_padded (c w : Z) :
  relu3_padded fast_log I W n c w = relu3_padded fast_log I' W n' c w.
Proof.
  unfold relu3_padded. rewrite !pad_stages3_eq, same_padded_stages.
  destruct ((0 <=? w) && (w <? 0 + padded_stages I'))%Z; [|reflexivity].
  unfold relu3. f_equal. rewrite !conv3_eq. f_equal.
  apply list_Rsum_ext. intros r _. now rewrite same_relu2_padded.
Qed.

Lemma same_pool3_padded (c w : Z) :
  pool3_padded fast_log I W n c w = pool3_padded fast_log I' W n' c w.
Proof.
  unfold pool3_padded. rewrite !pad_stages3_eq, same_pool3_stages.
  destruct ((0 <=? w) && (w <? 0 + pool3_stages I'))%Z; [|reflexivity].
  unfold pool3. now rewrite !same_relu3_padded.
Qed.

Lemma same_relu4_padded (c w : Z) :
  relu4_padded fast_log I W n c w = relu4_padded fast_log I' W n' c w.
Proof.
  unfold relu4_padded. rewrite !pad_stages3_eq, same_pool3_stages.
  destruct ((0 <=? w) && (w <? 0 + pool3_stages I'))%Z; [|reflexivity].
  unfold relu4. f_equal. rewrite !conv4_eq. f_equal.
  apply list_Rsum_ext. intros r _. now rewrite same_pool3_padded.
Qed.

Lemma same_pool4_padded (c w : Z) :
  pool4_padded fast_log I W n c w = pool4_padded fast_log I' W n' c w.
Proof.
  unfold pool4_padded. rewrite !pad_stages3_eq, same_pool4_stages.
  destruct ((0 <=? w) && (w <? 0 + pool4_stages I'))%Z; [|reflexivity].
  unfold pool4. now rewrite !same_relu4_padded.
Qed.

Lemma same_relu5_padded (c w : Z) :
  relu5_padded fast_log I W n c w = relu5_padded fast_log I' W n' c w.
Proof.
  unfold relu5_padded. rewrite !pad_stages3_eq, same_pool4_stages.
  destruct ((0 <=? w) && (w <? 0 + pool4_stages I'))%Z; [|reflexivity].
  unfold relu5. f_equal. rewrite !conv5_eq. f_equal.
  apply list_Rsum_ext. intros r _. now rewrite same_pool4_padded.
Qed.

Lemma same_prediction :
  prediction fast_log I W n = prediction fast_log I' W n'.
Proof.
  rewrite !prediction_eq. unfold r_reduce. rewrite same_pool4_stages.
  f_equal. apply list_Rsum_ext. intros w _.
  unfold relu6. f_equal. rewrite !conv6_eq. f_equal.
  apply list_Rsum_ext. intros r _. now rewrite same_relu5_padded.
Qed.

End BatchIndependence.

(** Batch independence.  The prediction for a batch element depends only on
    the stage count, the pipeline features, the statistics, the weights and
    that element's own row of schedule features: two calls that agree on
    these (at batch positions [n] and [n']) predict the same value there,
    whatever their batch sizes, their other rows, their training inputs and
    the mode (inference or training) of either call. *)
Theorem prediction_batch_independent (fast_log : R -> R)
    (d d' : Derivative) (training training' : bool) (I I' : Inputs)
    (W : Weights) (n n' : Z) :
  same_row n n' I I' ->
  prediction_output (CostModel.generate fast_log d training I W) n
  = prediction_output (CostModel.generate fast_log d' training' I' W) n'.
Proof.
  intros Hrow. apply (same_prediction fast_log I I' W n n' Hrow).
Qed.

Lemma prediction_batch_independent_witness :
  prediction_output
    (CostModel.generate ln example_derivative false
       (example_inputs_with (fun n _ _ => IZR n) 0 22 8)
       (example_weights 1)) 3
  = prediction_output
      (CostModel.generate ln example_derivative true
         (example_inputs_with (fun _ _ _ => 3%R) 0 22 1)
         (example_weights 1)) 0.
Proof.
  apply prediction_batch_independent.
  unfold same_row. repeat split; intros; reflexivity.
Defined.

(** ** The loss *)

Section LossFacts.
Local Open Scope R_scope.

Lemma Sigma_nonneg (n : nat) (f : Z -> R) :
  (forall i, 0 <= f i) -> 0 <= Sigma n f.
Proof.
  intros Hf. induction n as [|k IH]; simpl; [lra|].
  pose proof (Hf (Z.of_nat k)). lra.
Qed.

Lemma Sigma_zero_iff (n : nat) (f : Z -> R) :
  (forall i, 0 <= f i) ->
  (Sigma n f = 0 <-> forall i, (0 <= i < Z.of_nat n)%Z -> f i = 0).
Proof.
  intros Hf. induction n as [|k IH]; simpl Sigma.
  - split; [intros _ i Hi; lia | reflexivity].
  - pose proof (Sigma_nonneg k f Hf) as Hk.
    pose proof (Hf (Z.of_nat k)) as Hlast.
    split.
    + intros Hsum i Hi.
      destruct (Z.eq_dec i (Z.of_nat k)) as [->|Hne]; [lra|].
      apply IH; [lra | lia].
    + intros Hall.
      assert (H1 : Sigma k f = 0) by (apply IH; intros i Hi; apply Hall; lia).
      rewrite H1, (Hall (Z.of_nat k)) by lia. ring.
Qed.

Lemma loss_eq (fast_log : R -> R) (I : Inputs) (W : Weights) :
  CostModel.loss fast_log I W
  = Sigma (Z.to_nat (batch_size I)) (CostModel.err fast_log I W).
Proof.
  unfold CostModel.loss, CostModel.r_batch. apply sum_rdom.
Qed.

Lemma err_nonneg (fast_log : R -> R) (I : Inputs) (W : Weights) (n : Z) :
  0 <= CostModel.err fast_log I W n.
Proof.
  unfold CostModel.err.
  pose proof (Rle_0_sqr (CostModel.prediction fast_log I W n
                         - true_runtime I n)) as H.
  exact H.
Qed.

End LossFacts.

(** In training mode, for a batch size [B >= 1], the loss is never negative,
    and it is 0 exactly when the prediction equals the true runtime for
    every batch element [n < B]. *)
Theorem loss_nonneg_zero_iff (fast_log : R -> R) (d_loss_d : Derivative)
    (I : Inputs) (W : Weights) :
  (1 <= batch_size I)%Z ->
  let out := CostModel.generate fast_log d_loss_d true I W in
  (0 <= loss_output out)%R /\
  (loss_output out = 0%R <->
   forall n, (0 <= n < batch_size I)%Z ->
     prediction_output out n = true_runtime I n).
Proof.
  intros HB out. subst out.
  unfold CostModel.generate. cbn [loss_output prediction_output negb].
  rewrite loss_eq.
  assert (Hb : (0 < IZR (batch_size I))%R) by (apply IZR_lt; lia).
  assert (Hi : (0 < / IZR (batch_size I))%R)
    by (apply Rinv_0_lt_compat; exact Hb).
  pose proof (Sigma_nonneg (Z.to_nat (batch_size I))
                (CostModel.err fast_log I W)
                (err_nonneg fast_log I W)) as Hs.
  pose proof (Sigma_zero_iff (Z.to_nat (batch_size I))
                (CostModel.err fast_log I W)
                (err_nonneg fast_log I W)) as Hz.
  rewrite Z2Nat.id in Hz by lia.
  unfold Rdiv. split.
  - apply Rmult_le_pos; lra.
  - split.
    + intros H0 n Hn.
      assert (Hsum : Sigma (Z.to_nat (batch_size I))
                       (CostModel.err fast_log I W) = 0%R).
      { destruct (Rmult_integral _ _ H0) as [E|E]; [exact E | lra]. }
      pose proof (proj1 Hz Hsum n Hn) as He.
      unfold CostModel.err in He.
      apply Rmult_integral in He. destruct He; lra.
    + intros Hall.
      rewrite (proj2 Hz); [ring|].
      intros n Hn. unfold CostModel.err. rewrite (Hall n Hn). ring.
Qed.

Lemma loss_nonneg_zero_iff_witness :
  (0 <= loss_output
          (CostModel.generate ln example_derivative true
             (example_inputs 22 4) (example_weights 1)))%R.
Proof.
  assert (HB : (1 <= batch_size (example_inputs 22 4))%Z) by (simpl; lia).
  exact (proj1 (loss_nonneg_zero_iff ln example_derivative
                  (example_inputs 22 4) (example_weights 1) HB)).
Defined.
